(** * The 0x quote provider: a shallow embedding of [ZeroxProvider.get_quote]

    Sources embedded here:
    - [apps/api/src/providers/zerox/__init__.py]  ([ZeroxProvider])
    - [apps/api/src/providers/zerox/config.py]    ([ZeroxSettings])
    - [apps/api/src/data/chain.py]                ([CHAIN_CONFIG])

    Python values are an inductive type [pyval]; a [float] is an IEEE-754
    binary64 number in the style of [SpecFloat] (precision 53, emax 1024);
    a [str] is a Rocq [string] read as a sequence of code points below 256;
    a [dict] is the list of its items in insertion order.  The HTTP layer
    ([requests]) and the clock ([time.perf_counter]) are the environment of
    a small state-and-exception monad: the state records every request that
    was sent and how often the clock was read. *)

From Stdlib Require Import ZArith Ascii String List Bool Lia DecimalString
  DecimalPos DecimalZ.
From Stdlib.Floats Require Import SpecFloat.
From stdpp Require Import base option strings gmap.

Local Open Scope string_scope.
Local Open Scope Z_scope.

(** ** Python integers as text: [str(int)] *)

Module PyInt.

(** The decimal text of an [int]: the digits, with a leading minus sign
    for negative numbers.  It is what [str(n)] returns when it returns;
    [str_limited] is [str(n)] with the interpreter's limit on digits. *)
Definition str (n : Z) : string := NilZero.string_of_int (Z.to_int n).

(** Number of decimal digits of an integer, the sign not counted ([1] for
    [0]). *)
Definition ndigits (n : Z) : Z := Z.of_nat (String.length (str (Z.abs n))).

(** Whether [str(n)] succeeds under the interpreter's limit
    [sys.get_int_max_str_digits()], which is 4300 unless configured and
    which [0] turns off (CPython admits [0] and the values from 640 on):
    the conversion fails when the limit is positive and [n] has more
    decimal digits than it, the sign not counted. *)
Definition fits (int_max_str_digits n : Z) : bool :=
  negb ((0 <? int_max_str_digits) && (int_max_str_digits <? ndigits n)).

(** [str(n)] for an [int] under that limit; [None] stands for
    [ValueError]. *)
Definition str_limited (int_max_str_digits n : Z) : option string :=
  if fits int_max_str_digits n then Some (str n) else None.

(** The message of that [ValueError]. *)
Definition limit_message (int_max_str_digits : Z) : string :=
  String.append "Exceeds the limit ("
    (String.append (str int_max_str_digits)
       " digits) for integer string conversion; use sys.set_int_max_str_digits() to increase the limit").

End PyInt.

(** ** Python floats: IEEE-754 binary64 *)

Module PyFloat.

Definition prec : Z := 53.
Definition emax : Z := 1024.

Definition float : Type := spec_float.

Definition zero : float := S754_zero false.
Definition inf (neg : bool) : float := S754_infinity neg.
Definition nan : float := S754_nan.

Definition eqb_repr (x y : float) : bool :=
  match x, y with
  | S754_zero a, S754_zero b => Bool.eqb a b
  | S754_infinity a, S754_infinity b => Bool.eqb a b
  | S754_nan, S754_nan => true
  | S754_finite a m e, S754_finite b m' e' =>
      Bool.eqb a b && Pos.eqb m m' && Z.eqb e e'
  | _, _ => false
  end.

(** The binary64 number nearest to the rational [a / b] ([a >= 0],
    [b > 0]), ties to even, with sign [neg]; overflow gives an infinity.
    This is the one rounding used by int-to-float conversion, by true
    division of integers and by the reading of decimal literals. *)
Definition of_ratio (neg : bool) (a b : Z) : float :=
  match a with
  | Z0 => S754_zero neg
  | Zpos _ =>
      let '(q, e, l) := SFdiv_core_binary prec emax a 0 b 0 in
      binary_round_aux prec emax neg q e l
  | Zneg _ => S754_nan
  end.

(** [m * 10^k] rounded to binary64. *)
Definition of_decimal (neg : bool) (m k : Z) : float :=
  if 0 <=? k then of_ratio neg (m * 10 ^ k) 1
  else of_ratio neg m (10 ^ (- k)).

(** [float(n)] for an [int]: [None] stands for [OverflowError]
    ("int too large to convert to float"). *)
Definition of_int (n : Z) : option float :=
  match of_ratio (n <? 0) (Z.abs n) 1 with
  | S754_infinity _ => None
  | x => Some x
  end.

Definition sub (x y : float) : float := SFsub prec emax x y.

(** [x / y] on floats; [None] stands for [ZeroDivisionError]. *)
Definition truediv (x y : float) : option float :=
  match y with
  | S754_zero _ => None
  | _ => Some (SFdiv prec emax x y)
  end.

(** Neither a zero, nor an infinity, nor a NaN. *)
Definition is_finite (x : float) : bool :=
  match x with S754_finite _ _ _ => true | _ => false end.

(** [bool(x)]: every float except the two zeros is true. *)
Definition truthy (x : float) : bool :=
  match x with S754_zero _ => false | _ => true end.

(** *** [repr(float)]: the shortest decimal string that reads back as
    the same float (CPython's [float_repr_style] is "short") *)

(** The exact value of a finite positive float [m * 2^e] as a fraction. *)
Definition exact_ratio (m : positive) (e : Z) : Z * Z :=
  if 0 <=? e then (Zpos m * 2 ^ e, 1) else (Zpos m, 2 ^ (- e)).

(** For [0 < n < d]: the least [j >= 1] with [n * 10^j >= d]. *)
Fixpoint small_exponent (fuel : nat) (n d j : Z) : Z :=
  match fuel with
  | O => j
  | S fuel' =>
      if d <=? n * 10 ^ j then j else small_exponent fuel' n d (j + 1)
  end.

(** The decimal point position [k] of [n / d > 0]:
    [10^(k-1) <= n/d < 10^k]. *)
Definition decimal_point (n d : Z) : Z :=
  if d <=? n then PyInt.ndigits (n / d)
  else 1 - small_exponent (S (Z.to_nat (Z.log2 d))) n d 1.

(** A candidate significand [c], read at scale [10^s], reads back as
    [x]. *)
Definition reads_back (x : float) (c s : Z) : bool :=
  eqb_repr (of_decimal false c s) x.

(** The digits of [x = n/d] at a given length [len]: the two neighbours
    [lo <= x * 10^(len-k) < lo + 1]; the one that reads back as [x] is
    kept, the nearer one (ties to the even digit) when both do. *)
Definition digits_at (x : float) (n d k len : Z) : option Z :=
  let s := k - len in
  let '(n', d') := if 0 <=? s then (n, d * 10 ^ s) else (n * 10 ^ (- s), d) in
  let lo := n' / d' in
  let r := n' - lo * d' in
  if r =? 0 then (if reads_back x lo s then Some lo else None)
  else
    match reads_back x lo s, reads_back x (lo + 1) s with
    | true, true =>
        match 2 * r ?= d' with
        | Lt => Some lo
        | Gt => Some (lo + 1)
        | Eq => Some (if Z.even lo then lo else lo + 1)
        end
    | true, false => Some lo
    | false, true => Some (lo + 1)
    | false, false => None
    end.

(** Try the lengths [len], [len + 1], ...; seventeen digits always
    suffice for binary64. *)
Fixpoint shortest (fuel : nat) (x : float) (n d k len : Z) : Z * Z :=
  match fuel with
  | O => (n * 10 ^ (len - k) / d, len)
  | S fuel' =>
      match digits_at x n d k len with
      | Some c => (c, len)
      | None => shortest fuel' x n d k (len + 1)
      end
  end.

Fixpoint strip_zeros (fuel : nat) (c : Z) : Z :=
  match fuel with
  | O => c
  | S fuel' => if (c mod 10 =? 0) && negb (c =? 0)
               then strip_zeros fuel' (c / 10) else c
  end.

(** The digit string and decimal point of a finite positive float, as
    [_Py_dg_dtoa] in mode 0 returns them: the value is
    [0.d1d2...dn * 10^decpt] and [dn] is not [0]. *)
Definition dtoa (m : positive) (e : Z) : string * Z :=
  let '(n, d) := exact_ratio m e in
  let k := decimal_point n d in
  let '(c, len) := shortest 17 (S754_finite false m e) n d k 1 in
  let decpt := k - len + PyInt.ndigits c in
  (PyInt.str (strip_zeros 17 c), decpt).

Fixpoint zeros (n : nat) : string :=
  match n with O => EmptyString | S n' => String "0" (zeros n') end.

Definition take (n : nat) (s : string) : string := String.substring 0 n s.
Definition drop (n : nat) (s : string) : string :=
  String.substring n (String.length s - n) s.

(** The exponent of the scientific form: a sign and at least two digits. *)
Definition exponent_text (x : Z) : string :=
  let a := PyInt.str (Z.abs x) in
  String.append (if x <? 0 then "-" else "+")
                (if Z.abs x <? 10 then String "0" a else a).

(** [format_float_short] with format code ['r'] and [Py_DTSF_ADD_DOT_0]:
    scientific notation when [decpt <= -4] or [decpt > 16]. *)
Definition format_short (digits : string) (decpt : Z) : string :=
  let nd := String.length digits in
  if (decpt <=? -4) || (16 <? decpt) then
    String.append (take 1 digits)
      (String.append (if (1 <? nd)%nat then String "." (drop 1 digits) else EmptyString)
                     (String "e" (exponent_text (decpt - 1))))
  else if decpt <=? 0 then
    String.append "0." (String.append (zeros (Z.to_nat (- decpt))) digits)
  else if Z.of_nat nd <=? decpt then
    String.append digits
      (String.append (zeros (Z.to_nat decpt - nd)) ".0")
  else
    String.append (take (Z.to_nat decpt) digits)
                  (String "." (drop (Z.to_nat decpt) digits)).

(** [repr(x)], which is also [str(x)], for a float. *)
Definition repr (x : float) : string :=
  match x with
  | S754_nan => "nan"
  | S754_infinity neg => if neg then "-inf" else "inf"
  | S754_zero neg => if neg then "-0.0" else "0.0"
  | S754_finite neg m e =>
      let '(digits, decpt) := dtoa m e in
      String.append (if neg then "-" else EmptyString) (format_short digits decpt)
  end.

End PyFloat.

(** ** Python strings

    A [str] is modelled by a [string] whose characters are the code points
    [0..255]; on these the functions below agree with CPython. *)

Module PyStr.

Definition code (c : ascii) : Z := Z.of_N (N_of_ascii c).
Definition chr (n : Z) : ascii := ascii_of_N (Z.to_N n).

(** [str.lower()]: [A-Z], and the upper-case letters [U+00C0..U+00DE]
    without the multiplication sign [U+00D7], move up by 32. *)
Definition lower_char (c : ascii) : ascii :=
  let n := code c in
  if ((65 <=? n) && (n <=? 90))
     || ((192 <=? n) && (n <=? 222) && negb (n =? 215))
  then chr (n + 32) else c.

Fixpoint lower (s : string) : string :=
  match s with
  | EmptyString => EmptyString
  | String c s' => String (lower_char c) (lower s')
  end.

(** The characters [float()] strips from the two ends of its argument.
    [PyFloat_FromString] first turns the spaces above 127 ([U+0085] and
    [U+00A0] below 256) into an ASCII space and leaves every character
    below 127 as it is; then it strips [Py_ISSPACE], which is tab, line
    feed, vertical tab, form feed, carriage return and space.  The
    separators [U+001C..U+001F], which [str.isspace] and [str.strip]
    count as spaces, are not stripped. *)
Definition is_space (c : ascii) : bool :=
  let n := code c in
  ((9 <=? n) && (n <=? 13)) || (n =? 32) || (n =? 133) || (n =? 160).

Definition is_digit (c : ascii) : bool :=
  let n := code c in (48 <=? n) && (n <=? 57).

(** [Py_UNICODE_ISPRINTABLE] below 256. *)
Definition is_printable (c : ascii) : bool :=
  let n := code c in
  ((32 <=? n) && (n <=? 126)) || ((161 <=? n) && negb (n =? 173)).

Definition hex_digit (n : Z) : ascii :=
  if n <? 10 then chr (48 + n) else chr (87 + n).

Fixpoint contains (c : ascii) (s : string) : bool :=
  match s with
  | EmptyString => false
  | String c' s' => Ascii.eqb c c' || contains c s'
  end.

Fixpoint escape (quote : ascii) (s : string) : string :=
  match s with
  | EmptyString => EmptyString
  | String c s' =>
      let rest := escape quote s' in
      let n := code c in
      if Ascii.eqb c quote || (n =? 92) then String "\" (String c rest)
      else if n =? 9 then String "\" (String "t" rest)
      else if n =? 10 then String "\" (String "n" rest)
      else if n =? 13 then String "\" (String "r" rest)
      else if is_printable c then String c rest
      else String "\" (String "x" (String (hex_digit (n / 16))
                                     (String (hex_digit (n mod 16)) rest)))
  end.

(** [repr(s)] ([unicode_repr]): single quotes, unless the text has a
    single quote and no double quote. *)
Definition repr (s : string) : string :=
  let quote : ascii :=
    if contains "'" s && negb (contains (chr 34) s) then chr 34 else "'"%char in
  String quote (String.append (escape quote s) (String quote EmptyString)).

End PyStr.

(** ** [float(str)] *)

Module FloatParse.

Import PyFloat.

(** The text without the spaces [float()] strips at its start. *)
Fixpoint strip_left (s : list ascii) : list ascii :=
  match s with
  | c :: s' => if PyStr.is_space c then strip_left s' else s
  | [] => []
  end.

(** The text without the spaces [float()] strips at its two ends; a space
    inside the text stays and makes the text no number. *)
Definition strip (s : list ascii) : list ascii :=
  rev (strip_left (rev (strip_left s))).

(** [_Py_string_to_number_with_underscores]: an underscore must stand
    between two digits; the result is the text without underscores. *)
Fixpoint drop_underscores (prev : option ascii) (s : list ascii)
  : option (list ascii) :=
  let is_dig (o : option ascii) :=
    match o with Some c => PyStr.is_digit c | None => false end in
  match s with
  | [] => if decide (prev = Some "_"%char) then None else Some []
  | c :: s' =>
      if Ascii.eqb c "_" then
        if is_dig prev then drop_underscores (Some c) s' else None
      else if decide (prev = Some "_"%char) then
        if PyStr.is_digit c
        then option_map (cons c) (drop_underscores (Some c) s') else None
      else option_map (cons c) (drop_underscores (Some c) s')
  end.

(** The longest prefix of decimal digits: its value, its length, the
    rest. *)
Fixpoint digits (acc : Z) (len : Z) (s : list ascii) : Z * Z * list ascii :=
  match s with
  | c :: s' =>
      if PyStr.is_digit c
      then digits (10 * acc + (PyStr.code c - 48)) (len + 1) s'
      else (acc, len, s)
  | [] => (acc, len, [])
  end.

Definition sign (s : list ascii) : bool * list ascii :=
  match s with
  | c :: s' =>
      if Ascii.eqb c "-" then (true, s')
      else if Ascii.eqb c "+" then (false, s') else (false, s)
  | [] => (false, [])
  end.

Definition lower_text (s : list ascii) : string :=
  PyStr.lower (string_of_list_ascii s).

(** [_Py_parse_inf_or_nan]. *)
Definition inf_or_nan (neg : bool) (s : list ascii) : option float :=
  let t := lower_text s in
  if String.eqb t "inf" || String.eqb t "infinity" then Some (inf neg)
  else if String.eqb t "nan" then Some nan
  else None.

(** The optional exponent part; [None] when text remains that is not a
    well-formed exponent. *)
Definition exponent (s : list ascii) : option Z :=
  match s with
  | [] => Some 0
  | c :: s' =>
      if Ascii.eqb c "e" || Ascii.eqb c "E" then
        let '(neg, s'') := sign s' in
        match digits 0 0 s'' with
        | (x, len, []) =>
            if 0 <? len then Some (if neg then - x else x) else None
        | _ => None
        end
      else None
  end.

(** A decimal literal: digits, an optional point and more digits (at
    least one digit in all), an optional exponent. *)
Definition decimal (neg : bool) (s : list ascii) : option float :=
  let '(ip, ilen, s1) := digits 0 0 s in
  let '(m, flen, s2) :=
    match s1 with
    | c :: s1' => if Ascii.eqb c "." then digits ip 0 s1' else (ip, 0, s1)
    | [] => (ip, 0, [])
    end in
  if 0 <? ilen + flen then
    match exponent s2 with
    | Some x => Some (of_decimal neg m (x - flen))
    | None => None
    end
  else None.

(** [float(s)] for a [str]; [None] stands for [ValueError]
    ("could not convert string to float"). *)
Definition of_str (s : string) : option float :=
  match drop_underscores None (strip (list_ascii_of_string s)) with
  | None => None
  | Some t =>
      let '(neg, body) := sign t in
      match inf_or_nan neg body with
      | Some x => Some x
      | None => decimal neg body
      end
  end.

End FloatParse.

(** ** Python values

    The values [json.loads] builds, which are also the values of the result
    records: [None], [bool], [int], [float], [str], [list] and [dict] with
    string keys.  A [dict] is the list of its items in insertion order; its
    keys are pairwise different and [dict_get] reads the binding of a key. *)

#[local] Set Warnings "-register-all".

Inductive pyval : Type :=
| VNone
| VBool (b : bool)
| VInt (n : Z)
| VFloat (x : PyFloat.float)
| VStr (s : string)
| VList (items : list pyval)
| VDict (items : list (string * pyval)).

(** The exceptions the conversion code can raise, all subclasses of
    [Exception]. *)
Inductive conversion_error : Type :=
| TypeError
| ValueError
| OverflowError
| ZeroDivisionError.

Module Py.

(** [d.get(key)] on the items of a dict: [None] when the key is absent. *)
Fixpoint dict_get (key : string) (items : list (string * pyval))
  : option pyval :=
  match items with
  | [] => None
  | (k, v) :: rest => if String.eqb k key then Some v else dict_get key rest
  end.

(** [bool(v)], the test of [if v:]. *)
Definition truthy (v : pyval) : bool :=
  match v with
  | VNone => false
  | VBool b => b
  | VInt n => negb (n =? 0)
  | VFloat x => PyFloat.truthy x
  | VStr s => negb (String.eqb s EmptyString)
  | VList items => match items with [] => false | _ => true end
  | VDict items => match items with [] => false | _ => true end
  end.

(** [float(v)]. *)
Definition float (v : pyval) : conversion_error + PyFloat.float :=
  match v with
  | VBool b => inr (if b then PyFloat.of_ratio false 1 1 else PyFloat.zero)
  | VInt n =>
      match PyFloat.of_int n with
      | Some x => inr x
      | None => inl OverflowError
      end
  | VFloat x => inr x
  | VStr s =>
      match FloatParse.of_str s with
      | Some x => inr x
      | None => inl ValueError
      end
  | VNone | VList _ | VDict _ => inl TypeError
  end.

(** [x / n] for a float [x] and an int [n]: the int is converted first. *)
Definition float_div_int (x : PyFloat.float) (n : Z)
  : conversion_error + PyFloat.float :=
  match PyFloat.of_int n with
  | None => inl OverflowError
  | Some y =>
      match PyFloat.truediv x y with
      | Some q => inr q
      | None => inl ZeroDivisionError
      end
  end.

Fixpoint join (sep : string) (parts : list string) : string :=
  match parts with
  | [] => EmptyString
  | [p] => p
  | p :: rest => String.append p (String.append sep (join sep rest))
  end.

(** [repr(v)]. *)
Fixpoint repr (v : pyval) : string :=
  match v with
  | VNone => "None"
  | VBool b => if b then "True" else "False"
  | VInt n => PyInt.str n
  | VFloat x => PyFloat.repr x
  | VStr s => PyStr.repr s
  | VList items =>
      String.append "[" (String.append (join ", " (map repr items)) "]")
  | VDict items =>
      let item (kv : string * pyval) :=
        String.append (PyStr.repr (fst kv))
                      (String.append ": " (repr (snd kv))) in
      String.append "{" (String.append (join ", " (map item items)) "}")
  end.

(** [str(v)]: the text itself for a [str], [repr(v)] otherwise. *)
Definition str (v : pyval) : string :=
  match v with
  | VStr s => s
  | _ => repr v
  end.

(** An optional value as a Python value: [None] for the missing one. *)
Definition of_option (o : option pyval) : pyval :=
  match o with Some v => v | None => VNone end.

End Py.

(** ** The [requests] library and the clock *)

(** What [Response.json()] finds in the body: a JSON document, or text
    that is no JSON ([message] is the decoder's complaint). *)
Inductive Body : Type :=
| JsonBody (document : pyval)
| NotJson (message : string).

Record Response : Type := mkResponse {
  status_code : Z;
  reason : string;
  response_url : string;
  body : Body
}.

(** Python exceptions, by what the two [except] clauses of [get_quote]
    tell apart: [requests.RequestException] (with all its subclasses:
    [ConnectionError], [Timeout], [HTTPError], [TooManyRedirects],
    [JSONDecodeError], ...) carries an optional response; every other
    exception is [OtherError] with its class name. *)
Inductive exn : Type :=
| RequestException (message : string) (response : option Response)
| OtherError (class_name message : string).

Record Request : Type := mkRequest {
  method : string;
  request_url : string;
  headers : list (string * string);
  params : list (string * string);
  timeout : Z
}.

(** The value a request sends for a query parameter. *)
Definition query_param (key : string) (req : Request) : option string :=
  snd <$> find (fun kv => String.eqb (fst kv) key) (params req).

(** The outside of the process: what the network answers to a request and
    what the [n]-th reading of [time.perf_counter()] is. *)
Record Env : Type := mkEnv {
  network : Request -> exn + Response;
  clock : nat -> PyFloat.float
}.

(** The effects of a run: the requests sent, oldest first, and the number
    of clock readings. *)
Record World : Type := mkWorld {
  sent : list Request;
  clock_reads : nat
}.

Definition initial_world : World := {| sent := []; clock_reads := 0 |}.

(** *** The monad of effectful Python code *)

Definition Run (A : Type) : Type := Env -> World -> (exn + A) * World.

#[global] Instance Run_ret : MRet Run :=
  fun A (a : A) _ w => (inr a, w).

#[global] Instance Run_bind : MBind Run :=
  fun A B (f : A -> Run B) (m : Run A) env w =>
    match m env w with
    | (inr a, w') => f a env w'
    | (inl e, w') => (inl e, w')
    end.

Definition raise {A : Type} (e : exn) : Run A := fun _ w => (inl e, w).

(** [try: body  except <clause> as e: handler e]; [handler e = None] when
    the clause does not match [e], which then propagates. *)
Definition try_except {A : Type} (body : Run A) (handler : exn -> option (Run A))
  : Run A :=
  fun env w =>
    match body env w with
    | (inr a, w') => (inr a, w')
    | (inl e, w') =>
        match handler e with
        | Some h => h env w'
        | None => (inl e, w')
        end
    end.

Module time.

(** [time.perf_counter()]. *)
Definition perf_counter : Run PyFloat.float :=
  fun env w =>
    (inr (clock env (clock_reads w)),
     {| sent := sent w; clock_reads := S (clock_reads w) |}).

End time.

Module requests.

(** [requests.get(url, headers=..., params=..., timeout=...)]: one
    request leaves the process; the call returns the response or raises
    what the transport raised. *)
Definition get (url : string) (headers params : list (string * string))
    (timeout : Z) : Run Response :=
  fun env w =>
    let req := {| method := "GET"; request_url := url; headers := headers;
                  params := params; timeout := timeout |} in
    (network env req,
     {| sent := sent w ++ [req]; clock_reads := clock_reads w |}).

(** [Response.raise_for_status()] ([requests/models.py]): [HTTPError] for
    a status in [400..599], nothing otherwise. *)
Definition http_error_msg (r : Response) : option string :=
  let text (kind : string) :=
    String.append (PyInt.str (status_code r))
      (String.append kind
         (String.append (reason r)
            (String.append " for url: " (response_url r)))) in
  if (400 <=? status_code r) && (status_code r <? 500)
  then Some (text " Client Error: ")
  else if (500 <=? status_code r) && (status_code r <? 600)
  then Some (text " Server Error: ")
  else None.

Definition raise_for_status (r : Response) : Run unit :=
  match http_error_msg r with
  | Some msg => raise (RequestException msg (Some r))
  | None => mret tt
  end.

(** [Response.ok], which is also [Response.__bool__]: whether
    [raise_for_status] stays silent. *)
Definition ok (r : Response) : bool :=
  match http_error_msg r with Some _ => false | None => true end.

(** [Response.json()]: the decoded document, or
    [requests.exceptions.JSONDecodeError], which (requests 2.27 and later)
    is a [RequestException] built without a response. *)
Definition json (r : Response) : Run pyval :=
  match body r with
  | JsonBody v => mret v
  | NotJson msg => raise (RequestException msg None)
  end.

End requests.

(** [type(v).__name__]. *)
Definition type_name (v : pyval) : string :=
  match v with
  | VNone => "NoneType"
  | VBool _ => "bool"
  | VInt _ => "int"
  | VFloat _ => "float"
  | VStr _ => "str"
  | VList _ => "list"
  | VDict _ => "dict"
  end.

(** [v.get(key)] on an arbitrary value: the method exists on dicts only. *)
Definition method_get (v : pyval) (key : string) : Run pyval :=
  match v with
  | VDict items => mret (Py.of_option (Py.dict_get key items))
  | _ =>
      raise (OtherError "AttributeError"
               (String.append "'"
                  (String.append (type_name v)
                                 "' object has no attribute 'get'")))
  end.

(** ** [data/chain.py] *)

Record Token : Type := mkToken {
  address : string;
  symbol : string;
  decimals : N
}.

Record Chain : Type := mkChain {
  blockchain : string;
  normalization_token : Token;
  trading_tokens : list Token
}.

Definition hyperevm : Chain := {|
  blockchain := "hyperevm";
  normalization_token :=
    mkToken "0x5d3a1ff2b6bab83b63cd9ad0787074081a52ef34" "USDe" 18;
  trading_tokens := [
    mkToken "0xb8ce59fc3717ada4c02eadf9682a9e934f625ebb" "USDT0" 6;
    mkToken "0x02c6a2fa58cc01a18b8d9e00ea48d65e4df26c70" "FEUSD" 18;
    mkToken "0x5555555555555555555555555555555555555555" "HYPE" 18;
    mkToken "0xffaa4a3d97fe9107cef8a3f48c069f577ff76cc1" "stHYPE" 18;
    mkToken "0x5748ae796ae46a4f1348a1693de4b50560485562" "LHYPE" 18;
    mkToken "0xca79db4b49f608ef54a5cb813fbed3a6387bc645" "USDXL" 18;
    mkToken "0x9fdbda0a5e284c32744d2f17ee5c74b284993463" "UBTC" 8;
    mkToken "0x94e8396e0869c9f2200760af0621afd240e1cf38" "WSTHYPE" 18;
    mkToken "0x9b498c3c8a0b8cd8ba1d9851d40d186f1872b44e" "PURR" 18;
    mkToken "0xfD739d4e423301CE9385c1fb8850539D657C296D" "kHYPE" 18;
    mkToken "0xcb0ac0aa94c67dde8688ac34c8e4d6c18e78b638" "LIQD" 6;
    mkToken "0xf4d9235269a96aadafc9adae454a0618ebe37949" "XAUTO" 6;
    mkToken "0x27ec642013bcb3d80ca3706599d3cda04f6f4452" "UPUMP" 6;
    mkToken "0xb50A96253aBDF803D85efcDce07Ad8becBc52BD5" "USDHL" 6;
    mkToken "0x5d3a1ff2b6bab83b63cd9ad0787074081a52ef34" "USDe" 18
  ]
|}.

Definition plasma : Chain := {|
  blockchain := "plasma";
  normalization_token :=
    mkToken "0xB8CE59FC3717ada4C02eaDF9682A9e934F625ebb" "USDT0" 6;
  trading_tokens := [
    mkToken "0xeeeeeeeeeeeeeeeeeeeeeeeeeeeeeeeeeeeeeeee" "XPL" 18;
    mkToken "0x5d3a1ff2b6bab83b63cd9ad0787074081a52ef34" "USDe" 18;
    mkToken "0x9895d81bb462a195b4922ed7de0e3acd007c32cb" "WETH" 18;
    mkToken "0x1B64B9025EEbb9A6239575dF9Ea4b9Ac46D4d193" "XAUt0" 6;
    mkToken "0xc4374775489cb9c56003bf2c9b12495fc64f0771" "syrupUSDT" 6;
    mkToken "0xA3D68b74bF0528fdD07263c60d6488749044914b" "weETH" 18;
    mkToken "0x0A1a1A107E45b7Ced86833863f482BC5f4ed82EF" "USDai" 18;
    mkToken "0x0B2b2B2076d95dda7817e785989fE353fe955ef9" "sUSDai" 18;
    mkToken "0x87e617C7484aDE79FcD90db58BEB82B057facb48" "USDo" 18;
    mkToken "0x6eAf19b2FC24552925dB245F9Ff613157a7dbb4C" "XUSD" 6;
    mkToken "0x92A01Ab7317Ac318b39b00EB6704ba56F0245D7a" "trillions" 18
  ]
|}.

(** The dict literal, in source order. *)
Definition CHAIN_CONFIG : list (string * Chain) :=
  [("999", hyperevm); ("9745", plasma)].

Definition chain_config (chain : string) : option Chain :=
  snd <$> find (fun kv => String.eqb (fst kv) chain) CHAIN_CONFIG.

(** Every token a chain names: the normalization token, then the trading
    tokens. *)
Definition chain_tokens (c : Chain) : list Token :=
  normalization_token c :: trading_tokens c.

(** Modelled from the spec: [TOKEN_DECIMALS] of [core/runner.py], which is
    not among the sources.  The spec describes it as "a process-wide
    mapping from lower-cased token address to integer decimal count,
    assembled externally from the static chain configuration tables".  No
    address is listed with two different decimal counts
    ([config_decimals_agree]), so the order of assembly does not matter. *)
Definition TOKEN_DECIMALS_of_config : gmap string N :=
  foldr (fun (t : Token) (m : gmap string N) =>
           <[PyStr.lower (address t) := decimals t]> m)
        ∅ (concat (map (fun kv => chain_tokens (snd kv)) CHAIN_CONFIG)).

(** ** [providers/zerox/config.py] *)

(** [ZeroxSettings]: the two fields, read from the environment
    ([ZEROX_URL], [ZEROX_API_KEY]) when the module is loaded. *)
Record ZeroxSettings : Type := mkSettings {
  url : string;
  api_key : string
}.

(** ** [providers/zerox/__init__.py] *)

Module ZeroxProvider.

(** The provider object: the state [BaseProvider.__init__] keeps. *)
Record t : Type := mk { self_api_key : string }.

(** [name] *)
Definition name (self : t) : string := "0x".

(** [supported_chains] *)
Definition supported_chains (self : t) : list string :=
  ["1"; "10"; "56"; "137"; "42161"; "8453"; "43114"; "9745"].

Section get_quote.

(** The module-level objects the method reads: [settings] of
    [config.py], [USER_ADDRESS] of [data/user.py] and [TOKEN_DECIMALS]
    of [core/runner.py]; the last two modules are not among the
    sources, so their values are left open. *)
Variable settings : ZeroxSettings.
Variable USER_ADDRESS : string.
Variable TOKEN_DECIMALS : gmap string N.

(** The interpreter's limit on the digits of an integer turned into text
    ([PyInt.fits]); [str(from_amount)] on line 31 is the one conversion
    of an integer the caller chooses. *)
Variable int_max_str_digits : Z.

(** Modelled from the spec: [BaseProvider.__init__] of
    [providers/base.py], which is not among the sources; it is handed
    [api_key=settings.api_key] and the method reads the key back as
    [self.api_key] for the header the spec calls "an API-key header". *)
Definition init : t := {| self_api_key := api_key settings |}.

(** Lines 50-62, inside the inner [try]: the decimal count of the buy
    token is looked up under its lower-cased address; a known count
    [d] gives [str(float(raw_output) / 10 ** d)], an unknown one
    [str(raw_output)]. *)
Definition convert (to_token : string) (raw_output : pyval)
  : conversion_error + string :=
  let output_decimals := TOKEN_DECIMALS !! PyStr.lower to_token in
  match output_decimals with
  | Some d =>
      match Py.float raw_output with
      | inl e => inl e
      | inr raw_float =>
          match Py.float_div_int raw_float (10 ^ Z.of_N d) with
          | inl e => inl e
          | inr converted_amount => inr (Py.str (VFloat converted_amount))
          end
      end
  | None => inr (Py.str raw_output)
  end.

(** Lines 44-72: [formatted_output]. *)
Definition formatted_output (to_token : string) (raw_output : pyval)
  : pyval :=
  if Py.truthy raw_output then
    match convert to_token raw_output with
    | inr text => VStr text
    | inl _ (* except Exception *) => VStr (Py.str raw_output)
    end
  else VNone.

(** [bool(e.response)], the test of the conditional expression on line
    87: [None] is false, and a [Response] is as true as its [ok]
    ([Response.__bool__] returns [self.ok]). *)
Definition response_truthy (response : option Response) : bool :=
  match response with
  | Some r => requests.ok r
  | None => false
  end.

(** Line 87: [e.response.status_code if e.response else None]. *)
Definition status_or_none (response : option Response) : pyval :=
  match response with
  | Some r =>
      if response_truthy response then VInt (status_code r) else VNone
  | None => VNone
  end.

(** The [except requests.RequestException as e] clause, lines 81-88. *)
Definition on_request_exception (self : t) (start_time : PyFloat.float)
    (e : exn) : option (Run pyval) :=
  match e with
  | RequestException message response =>
      Some (now ← time.perf_counter;
            let elapsed_time := PyFloat.sub now start_time in
            mret (VDict [
              ("name", VStr (name self));
              ("error", VStr message);
              ("elapsed_time", VFloat elapsed_time);
              ("status_code", status_or_none response)]))
  | OtherError _ _ => None
  end.

(** [get_quote(self, chain, from_token, to_token, from_amount,
    user_address=USER_ADDRESS)]; [user_address = None] is the call that
    leaves the last argument out.  Building [params] converts
    [from_amount] to text (line 31), before the clock is read and outside
    the [try]: when the interpreter's limit on digits refuses the
    conversion, its [ValueError] is all that happens.  The [print] calls
    write diagnostics only and are left out. *)
Definition get_quote (self : t) (chain from_token to_token : string)
    (from_amount : Z) (user_address : option string) : Run pyval :=
  let user_address := default USER_ADDRESS user_address in
  let headers := [
    ("accept", "*/*");
    ("content-type", "application/json");
    ("0x-api-key", self_api_key self);
    ("0x-version", "v2")] in
  match PyInt.str_limited int_max_str_digits from_amount with
  | None =>
      raise (OtherError "ValueError"
                        (PyInt.limit_message int_max_str_digits))
  | Some sellAmount =>
      let params := [
        ("sellToken", from_token);
        ("buyToken", to_token);
        ("sellAmount", sellAmount);
        ("taker", user_address);
        ("chainId", chain)] in
      start_time ← time.perf_counter;
      try_except
        (response ← requests.get (url settings) headers params 10;
         now ← time.perf_counter;
         let elapsed_time := PyFloat.sub now start_time in
         _ ← requests.raise_for_status response;
         document ← requests.json response;
         raw_output ← method_get document "buyAmount";
         let formatted_output := formatted_output to_token raw_output in
         raw_response ← requests.json response;
         mret (VDict [
           ("name", VStr (name self));
           ("output_amount", formatted_output);
           ("elapsed_time", VFloat elapsed_time);
           ("status_code", VInt (status_code response));
           ("raw_response", raw_response)]))
        (on_request_exception self start_time)
  end.

End get_quote.

End ZeroxProvider.

(** ** Reading the outcome of a call *)

(** The outcome of a call in the initial world. *)
Definition call {A : Type} (m : Run A) (env : Env) : (exn + A) * World :=
  m env initial_world.

(** The value under [key] of a returned record; [None] when the call
    raised, when it returned no dict or when the record has no such key. *)
Definition field {E : Type} (key : string) (outcome : E + pyval)
  : option pyval :=
  match outcome with
  | inr (VDict items) => Py.dict_get key items
  | _ => None
  end.

(** The keys of a returned record, in order. *)
Definition keys {E : Type} (outcome : E + pyval) : list string :=
  match outcome with
  | inr (VDict items) => map fst items
  | _ => []
  end.

Definition returned {E A : Type} (outcome : E + A) : bool :=
  match outcome with inr _ => true | inl _ => false end.

(** An environment whose network answers every request with the same
    outcome and whose clock shows [n] at its [n]-th reading. *)
Definition constant_env (answer : exn + Response) : Env :=
  {| network := fun _ => answer;
     clock := fun n => default PyFloat.zero (PyFloat.of_int (Z.of_nat n)) |}.

Definition json_response (status : Z) (document : pyval) : Response :=
  {| status_code := status; reason := EmptyString;
     response_url := EmptyString; body := JsonBody document |}.

(** ** One call of [get_quote] *)

Section Call.

Variable settings : ZeroxSettings.
Variable USER_ADDRESS : string.
Variable TOKEN_DECIMALS : gmap string N.
Variable self : ZeroxProvider.t.
Variables chain from_token to_token : string.
Variable from_amount : Z.
Variable user_address : option string.
Variable env : Env.

(** The request lines 22-38 describe. *)
Definition quote_request : Request := {|
  method := "GET";
  request_url := url settings;
  headers := [("accept", "*/*"); ("content-type", "application/json");
              ("0x-api-key", ZeroxProvider.self_api_key self);
              ("0x-version", "v2")];
  params := [("sellToken", from_token); ("buyToken", to_token);
             ("sellAmount", PyInt.str from_amount);
             ("taker", default USER_ADDRESS user_address);
             ("chainId", chain)];
  timeout := 10
|}.

(** The call under an interpreter with the limit [int_max_str_digits] on
    the digits of an integer turned into text, started in a world where
    nothing has happened yet: its outcome and the world it leaves. *)
Definition quote_limited (int_max_str_digits : Z)
  : (exn + pyval) * World :=
  call (ZeroxProvider.get_quote settings USER_ADDRESS TOKEN_DECIMALS
          int_max_str_digits self chain from_token to_token from_amount
          user_address) env.

(** The call under an interpreter whose limit is off, so that
    [str(from_amount)] succeeds whatever the amount.  Under any limit the
    call of an amount within the limit is this call
    ([quote_limited_fits]). *)
Definition quote : (exn + pyval) * World :=
  call (ZeroxProvider.get_quote settings USER_ADDRESS TOKEN_DECIMALS 0
          self chain from_token to_token from_amount user_address) env.

(** The time between the first reading of the clock and reading [n]. *)
Definition elapsed (n : nat) : PyFloat.float :=
  PyFloat.sub (clock env n) (clock env 0).

(** The network answers the request with the response [r], whose status
    is 2xx and whose body is the JSON object with the items [items]. *)
Definition answered_2xx (r : Response) (items : list (string * pyval))
  : Prop :=
  network env quote_request = inr r /\
  200 <= status_code r <= 299 /\
  body r = JsonBody (VDict items).

(** The request fails: the transport raises a [RequestException] (a
    network error, a timeout, too many redirects, ...), or a response
    arrives with a 4xx or 5xx status, which [raise_for_status] turns
    into an [HTTPError]. *)
Inductive request_fails : Prop :=
| transport_raises (message : string) (response : option Response) :
    network env quote_request = inl (RequestException message response) ->
    request_fails
| status_raises (r : Response) :
    network env quote_request = inr r ->
    400 <= status_code r <= 599 ->
    request_fails.

End Call.

#[global] Arguments quote : simpl never.
#[global] Arguments quote_limited : simpl never.

(** ** The formulas of the specification *)

Module Spec.

(** [a / b] on ints, Python's true division: the binary64 number nearest
    to the quotient.  [None] stands for [ZeroDivisionError] and for
    [OverflowError]. *)
Definition int_truediv (a b : Z) : option PyFloat.float :=
  if b =? 0 then None
  else
    match PyFloat.of_ratio (negb (Bool.eqb (a <? 0) (b <? 0)))
                           (Z.abs a) (Z.abs b) with
    | S754_infinity _ => None
    | q => Some q
    end.

(** "[output_amount == str(raw_amount / 10**decimals)]", with the raw
    amount the integer the response carries. *)
Definition output_amount (raw_amount : Z) (decimals : N) : option string :=
  PyFloat.repr <$> int_truediv raw_amount (10 ^ Z.of_N decimals).

End Spec.

(** The amount the code computes from the float [x] it reads and a decimal
    count [d <= 308]: the binary64 quotient of [x] by the float [10^d]. *)
Definition scaled (x : PyFloat.float) (d : N) : string :=
  PyFloat.repr
    (SFdiv PyFloat.prec PyFloat.emax x
           (PyFloat.of_ratio false (10 ^ Z.of_N d) 1)).

(** What a failure record is, in the words of the specification: the
    provider name, an error string and an elapsed time, no [output_amount]
    key and no raw response. *)
Definition failure_record (outcome : exn + pyval) : Prop :=
  field "name" outcome = Some (VStr "0x") /\
  (exists message, field "error" outcome = Some (VStr message)) /\
  (exists t, field "elapsed_time" outcome = Some (VFloat t)) /\
  field "output_amount" outcome = None /\
  field "raw_response" outcome = None.

(** ** Sample inputs *)

Module Sample.

Definition settings : ZeroxSettings :=
  {| url := "https://api.0x.org/swap/permit2/quote"; api_key := "k-1" |}.

Definition USER_ADDRESS : string :=
  "0x0000000000000000000000000000000000000001".

Definition self : ZeroxProvider.t := ZeroxProvider.init settings.

Definition USDe : string := "0x5d3a1ff2b6bab83b63cd9ad0787074081a52ef34".
Definition USDT0 : string := "0xb8ce59fc3717ada4c02eadf9682a9e934f625ebb".
Definition UBTC : string := "0x9fdbda0a5e284c32744d2f17ee5c74b284993463".

(** An address no chain lists. *)
Definition unlisted : string := "0x00000000000000000000000000000000000000aa".

(** One unit of USDe in base units. *)
Definition one_USDe : Z := 1000000000000000000.

(** A 200 response whose body is the object [{"buyAmount": amount}]. *)
Definition ok_with (amount : pyval) : Env :=
  constant_env (inr (json_response 200 (VDict [("buyAmount", amount)]))).

(** A response with the given status and an empty JSON object as body. *)
Definition status_only (status : Z) (reason : string) : Env :=
  constant_env
    (inr {| status_code := status; reason := reason;
            response_url := url settings; body := JsonBody (VDict []) |}).

(** The call of the scenarios: chain 999, one USDe sold, taker left out,
    decimals from the chain configuration. *)
Definition quote_of (to_token : string) (env : Env)
  : (exn + pyval) * World :=
  quote settings USER_ADDRESS TOKEN_DECIMALS_of_config self
        "999" USDe to_token one_USDe None env.

End Sample.

(** ** Decimal numerals *)

(** The characters of a decimal numeral, most significant digit first:
    what [str] writes for a positive [int]. *)
Definition numeral (u : Decimal.uint) : list ascii :=
  list_ascii_of_string (NilEmpty.string_of_uint u).

(** The number of digits of a numeral. *)
Definition numeral_length (u : Decimal.uint) : Z :=
  Z.of_nat (Decimal.nb_digits u).

(** Every token [CHAIN_CONFIG] names, chain by chain. *)
Definition config_tokens : list Token :=
  concat (map (fun kv => chain_tokens (snd kv)) CHAIN_CONFIG).

(** * Properties *)

(** ** How a call runs, by what the network does *)

Section Runs.

Import ZeroxProvider.

Context (settings : ZeroxSettings) (USER_ADDRESS : string)
        (TOKEN_DECIMALS : gmap string N) (self : ZeroxProvider.t)
        (chain from_token to_token : string) (from_amount : Z)
        (user_address : option string) (env : Env).

Local Abbreviation request :=
  (quote_request settings USER_ADDRESS self chain from_token to_token
                 from_amount user_address).
Local Abbreviation outcome :=
  (quote settings USER_ADDRESS TOKEN_DECIMALS self chain from_token
         to_token from_amount user_address env).

Ltac run :=
  unfold quote, call, get_quote, try_except, on_request_exception,
    requests.get, requests.raise_for_status, requests.json, method_get,
    time.perf_counter, raise, mbind, Run_bind, mret, Run_ret; cbn;
  fold request.

(** The transport raised a [RequestException]. *)
Lemma quote_transport_error message response :
  network env request = inl (RequestException message response) ->
  outcome =
    (inr (VDict [("name", VStr "0x"); ("error", VStr message);
                 ("elapsed_time", VFloat (elapsed env 1));
                 ("status_code", status_or_none response)]),
     {| sent := [request]; clock_reads := 2 |}).
Proof. intros H. run. rewrite H. reflexivity. Qed.

(** The transport raised something that is no [RequestException]. *)
Lemma quote_other_error class_name message :
  network env request = inl (OtherError class_name message) ->
  outcome = (inl (OtherError class_name message),
             {| sent := [request]; clock_reads := 1 |}).
Proof. intros H. run. rewrite H. reflexivity. Qed.

(** A response came back and [raise_for_status] raised. *)
Lemma quote_http_error r message :
  network env request = inr r ->
  requests.http_error_msg r = Some message ->
  outcome =
    (inr (VDict [("name", VStr "0x"); ("error", VStr message);
                 ("elapsed_time", VFloat (elapsed env 2));
                 ("status_code", VNone)]),
     {| sent := [request]; clock_reads := 3 |}).
Proof.
  intros H Hmsg. run. rewrite H. cbn. rewrite Hmsg. cbn.
  unfold requests.ok. rewrite Hmsg. reflexivity.
Qed.

(** A response came back, [raise_for_status] was silent and the body is
    a JSON object. *)
Lemma quote_success r items :
  network env request = inr r ->
  requests.http_error_msg r = None ->
  body r = JsonBody (VDict items) ->
  outcome =
    (inr (VDict [("name", VStr "0x");
                 ("output_amount",
                   formatted_output TOKEN_DECIMALS to_token
                     (Py.of_option (Py.dict_get "buyAmount" items)));
                 ("elapsed_time", VFloat (elapsed env 1));
                 ("status_code", VInt (status_code r));
                 ("raw_response", VDict items)]),
     {| sent := [request]; clock_reads := 2 |}).
Proof.
  intros H Hmsg Hbody. run. rewrite H. cbn. rewrite Hmsg. cbn.
  rewrite Hbody. reflexivity.
Qed.

(** A response came back, [raise_for_status] was silent and the body is
    JSON but no object: [.get] does not exist and the [AttributeError]
    passes the [except] clause. *)
Lemma quote_not_an_object r v :
  network env request = inr r ->
  requests.http_error_msg r = None ->
  body r = JsonBody v ->
  (forall items, v <> VDict items) ->
  exists message,
    outcome = (inl (OtherError "AttributeError" message),
               {| sent := [request]; clock_reads := 2 |}).
Proof.
  intros H Hmsg Hbody Hv. run. rewrite H. cbn. rewrite Hmsg. cbn.
  rewrite Hbody.
  destruct v; try (eexists; reflexivity).
  exfalso. eapply Hv. reflexivity.
Qed.

(** A response came back, [raise_for_status] was silent and the body is
    no JSON: the decoder's error is a [RequestException]. *)
Lemma quote_not_json r message :
  network env request = inr r ->
  requests.http_error_msg r = None ->
  body r = NotJson message ->
  outcome =
    (inr (VDict [("name", VStr "0x"); ("error", VStr message);
                 ("elapsed_time", VFloat (elapsed env 2));
                 ("status_code", VNone)]),
     {| sent := [request]; clock_reads := 3 |}).
Proof.
  intros H Hmsg Hbody. run. rewrite H. cbn. rewrite Hmsg. cbn.
  rewrite Hbody. reflexivity.
Qed.

(** Whatever the network does, one request is sent, and it is the one
    the arguments describe. *)
Lemma quote_sends_once : sent outcome.2 = [request].
Proof.
  run. destruct (network env request) as [[message response|c m]|r]; cbn;
    [reflexivity | reflexivity |].
  destruct (requests.http_error_msg r); cbn; [reflexivity|].
  destruct (body r) as [v|m]; cbn; [|reflexivity].
  destruct v; reflexivity.
Qed.

(** X11.  No [requests.RequestException] ever reaches the caller,
    whatever the network does. *)
Lemma quote_raises_no_request_exception message response :
  (quote settings USER_ADDRESS TOKEN_DECIMALS self chain from_token
         to_token from_amount user_address env).1
  <> inl (RequestException message response).
Proof.
  run. destruct (network env request) as [[m r'|c m]|r]; cbn;
    [discriminate | discriminate |].
  destruct (requests.http_error_msg r); cbn; [discriminate|].
  destruct (body r) as [v|m]; cbn; [|discriminate].
  destruct v; discriminate.
Qed.

(** [raise_for_status] raises for the statuses 400 to 599 and for no
    other. *)
Lemma http_error_iff r :
  is_Some (requests.http_error_msg r) <-> 400 <= status_code r <= 599.
Proof.
  unfold requests.http_error_msg.
  destruct (400 <=? status_code r) eqn:E1;
    destruct (status_code r <? 500) eqn:E2;
    destruct (500 <=? status_code r) eqn:E3;
    destruct (status_code r <? 600) eqn:E4; cbn;
    split; intros H; try (eexists; reflexivity);
    try (destruct H as [? H]; discriminate H); lia.
Qed.

Lemma http_error_none r :
  ~ 400 <= status_code r <= 599 -> requests.http_error_msg r = None.
Proof.
  intros H. destruct (requests.http_error_msg r) eqn:E; [|reflexivity].
  exfalso. apply H, http_error_iff. rewrite E. eexists; reflexivity.
Qed.

(** The run on a 2xx response with a JSON object. *)
Lemma quote_2xx r items :
  answered_2xx settings USER_ADDRESS self chain from_token to_token
               from_amount user_address env r items ->
  outcome =
    (inr (VDict [("name", VStr "0x");
                 ("output_amount",
                   formatted_output TOKEN_DECIMALS to_token
                     (Py.of_option (Py.dict_get "buyAmount" items)));
                 ("elapsed_time", VFloat (elapsed env 1));
                 ("status_code", VInt (status_code r));
                 ("raw_response", VDict items)]),
     {| sent := [request]; clock_reads := 2 |}).
Proof.
  intros (Hnet & Hstatus & Hbody).
  apply quote_success; [exact Hnet | apply http_error_none; lia | exact Hbody].
Qed.

(** With the limit off every amount can be written. *)
Lemma fits_unlimited n : PyInt.fits 0 n = true.
Proof. reflexivity. Qed.

(** Under any limit, the call of an amount within the limit is the call
    with the limit off. *)
Lemma quote_limited_fits int_max_str_digits :
  PyInt.fits int_max_str_digits from_amount = true ->
  quote_limited settings USER_ADDRESS TOKEN_DECIMALS self chain from_token
                to_token from_amount user_address env int_max_str_digits
  = outcome.
Proof.
  intros H. unfold quote_limited, quote, get_quote, PyInt.str_limited.
  rewrite H, fits_unlimited. reflexivity.
Qed.

(** An amount beyond the limit ends the call on line 31: [ValueError]
    reaches the caller, no request was sent and the clock was not read. *)
Lemma quote_limited_too_long int_max_str_digits :
  PyInt.fits int_max_str_digits from_amount = false ->
  quote_limited settings USER_ADDRESS TOKEN_DECIMALS self chain from_token
                to_token from_amount user_address env int_max_str_digits
  = (inl (OtherError "ValueError" (PyInt.limit_message int_max_str_digits)),
     initial_world).
Proof.
  intros H. unfold quote_limited, call, get_quote, PyInt.str_limited.
  rewrite H. reflexivity.
Qed.

End Runs.

(** ** Powers of ten as floats *)

Lemma pow10_checked :
  forallb (fun d => PyFloat.is_finite
                      (PyFloat.of_ratio false (10 ^ Z.of_nat d) 1))
          (seq 0 309) = true.
Proof. vm_compute. reflexivity. Qed.

(** [10 ** d] converts to a float exactly when [d <= 308]; here the half
    the conversion needs. *)
Lemma pow10_to_float (d : N) :
  (d <= 308)%N ->
  PyFloat.of_int (10 ^ Z.of_N d)
  = Some (PyFloat.of_ratio false (10 ^ Z.of_N d) 1) /\
  PyFloat.is_finite (PyFloat.of_ratio false (10 ^ Z.of_N d) 1) = true.
Proof.
  intros Hd.
  assert (Hfin : PyFloat.is_finite
                   (PyFloat.of_ratio false (10 ^ Z.of_N d) 1) = true).
  { pose proof pow10_checked as Hall.
    rewrite forallb_forall in Hall.
    specialize (Hall (N.to_nat d)).
    rewrite N_nat_Z in Hall. apply Hall.
    apply in_seq. lia. }
  split; [|exact Hfin].
  assert (Hpos : 0 < 10 ^ Z.of_N d) by (apply Z.pow_pos_nonneg; lia).
  unfold PyFloat.of_int.
  replace (10 ^ Z.of_N d <? 0) with false by (symmetry; apply Z.ltb_ge; lia).
  rewrite Z.abs_eq by lia.
  destruct (PyFloat.of_ratio false (10 ^ Z.of_N d) 1); try reflexivity.
  discriminate Hfin.
Qed.

Lemma pow10_beyond_float : PyFloat.of_int (10 ^ 309) = None.
Proof. vm_compute. reflexivity. Qed.

(** Dividing by a power of ten that is a float. *)
Lemma float_div_pow10 (x : PyFloat.float) (d : N) :
  (d <= 308)%N ->
  Py.float_div_int x (10 ^ Z.of_N d)
  = inr (SFdiv PyFloat.prec PyFloat.emax x
               (PyFloat.of_ratio false (10 ^ Z.of_N d) 1)).
Proof.
  intros Hd. destruct (pow10_to_float d Hd) as [Hconv Hfin].
  unfold Py.float_div_int. rewrite Hconv.
  destruct (PyFloat.of_ratio false (10 ^ Z.of_N d) 1);
    try discriminate Hfin. reflexivity.
Qed.

(** ** The output amount *)

Section Output.

Import ZeroxProvider.

Context (TOKEN_DECIMALS : gmap string N) (to_token : string).

Lemma formatted_output_falsy raw :
  Py.truthy raw = false -> formatted_output TOKEN_DECIMALS to_token raw = VNone.
Proof. intros H. unfold formatted_output. rewrite H. reflexivity. Qed.

Lemma formatted_output_known raw x d :
  Py.truthy raw = true ->
  TOKEN_DECIMALS !! PyStr.lower to_token = Some d ->
  (d <= 308)%N ->
  Py.float raw = inr x ->
  formatted_output TOKEN_DECIMALS to_token raw = VStr (scaled x d).
Proof.
  intros Ht Hd Hle Hx. unfold formatted_output, convert.
  rewrite Ht, Hd, Hx, float_div_pow10 by exact Hle. reflexivity.
Qed.

Lemma formatted_output_unknown raw :
  Py.truthy raw = true ->
  TOKEN_DECIMALS !! PyStr.lower to_token = None ->
  formatted_output TOKEN_DECIMALS to_token raw = VStr (Py.str raw).
Proof.
  intros Ht Hd. unfold formatted_output, convert. rewrite Ht, Hd.
  reflexivity.
Qed.

Lemma formatted_output_error raw e :
  Py.truthy raw = true ->
  convert TOKEN_DECIMALS to_token raw = inl e ->
  formatted_output TOKEN_DECIMALS to_token raw = VStr (Py.str raw).
Proof.
  intros Ht He. unfold formatted_output. rewrite Ht, He. reflexivity.
Qed.

(** A truthy amount always yields a string, a falsy one [None]. *)
Lemma formatted_output_cases raw :
  formatted_output TOKEN_DECIMALS to_token raw = VNone /\ Py.truthy raw = false
  \/ exists text, formatted_output TOKEN_DECIMALS to_token raw = VStr text
                  /\ Py.truthy raw = true.
Proof.
  unfold formatted_output. destruct (Py.truthy raw); [right|left; auto].
  destruct (convert _ _ _); eexists; split; reflexivity.
Qed.

End Output.

(** ** The claims about [get_quote] *)

Section Claims.

Import ZeroxProvider.

Context (settings : ZeroxSettings) (USER_ADDRESS : string)
        (TOKEN_DECIMALS : gmap string N) (self : ZeroxProvider.t)
        (chain from_token to_token : string) (from_amount : Z)
        (user_address : option string) (env : Env).

Local Abbreviation request :=
  (quote_request settings USER_ADDRESS self chain from_token to_token
                 from_amount user_address).
Local Abbreviation outcome :=
  (quote settings USER_ADDRESS TOKEN_DECIMALS self chain from_token
         to_token from_amount user_address env).
Local Abbreviation answered :=
  (answered_2xx settings USER_ADDRESS self chain from_token to_token
                from_amount user_address env).

(** C1, as amended.  On a 2xx response whose JSON object holds a truthy
    [buyAmount] that [float()] reads as [x], for a buy token whose
    lower-cased address has the decimal count [d <= 308] in the table,
    [output_amount] is the text of the binary64 quotient of [x] by
    [10^d], that is [str(float(buyAmount) / 10 ** d)]. *)
Theorem output_amount_scaled r items raw x d :
  answered r items ->
  Py.dict_get "buyAmount" items = Some raw ->
  Py.truthy raw = true ->
  Py.float raw = inr x ->
  TOKEN_DECIMALS !! PyStr.lower to_token = Some d ->
  (d <= 308)%N ->
  field "output_amount" outcome.1 = Some (VStr (scaled x d)).
Proof.
  intros Hr Hraw Ht Hx Hd Hle.
  rewrite (quote_2xx _ _ _ _ _ _ _ _ _ _ _ _ Hr), Hraw. cbn.
  rewrite (formatted_output_known _ _ _ _ _ Ht Hd Hle Hx). reflexivity.
Qed.

(** C3, as amended.  On a 2xx response whose JSON object holds a truthy
    [buyAmount], for a buy token whose lower-cased address is not in the
    table, the call returns normally, [output_amount] is
    [str(buyAmount)] and the record has no [error] key. *)
Theorem output_amount_unconverted r items raw :
  answered r items ->
  Py.dict_get "buyAmount" items = Some raw ->
  Py.truthy raw = true ->
  TOKEN_DECIMALS !! PyStr.lower to_token = None ->
  returned outcome.1 = true /\
  field "output_amount" outcome.1 = Some (VStr (Py.str raw)) /\
  field "error" outcome.1 = None.
Proof.
  intros Hr Hraw Ht Hd.
  rewrite (quote_2xx _ _ _ _ _ _ _ _ _ _ _ _ Hr), Hraw. cbn.
  rewrite (formatted_output_unknown _ _ _ Ht Hd). auto.
Qed.

(** C5, as amended.  On a 2xx response whose JSON body is an object
    without the key [buyAmount], the call returns a record whose
    [output_amount] is [None]; no exception reaches the caller. *)
Theorem output_amount_none_without_key r items :
  answered r items ->
  Py.dict_get "buyAmount" items = None ->
  returned outcome.1 = true /\
  field "output_amount" outcome.1 = Some VNone.
Proof.
  intros Hr Hraw.
  rewrite (quote_2xx _ _ _ _ _ _ _ _ _ _ _ _ Hr), Hraw. cbn. auto.
Qed.

(** C6, as amended.  When the request fails with a [RequestException]
    (a network error, a timeout) or with a 4xx or 5xx status, the call
    returns - it does not raise - a record with exactly the keys [name],
    [error], [elapsed_time] and [status_code]: the provider name, an
    error string and an elapsed time are there, [output_amount] and
    [raw_response] are not; and exactly one request was sent. *)
Theorem failure_is_returned :
  request_fails settings USER_ADDRESS self chain from_token to_token
                from_amount user_address env ->
  returned outcome.1 = true /\
  failure_record outcome.1 /\
  keys outcome.1 = ["name"; "error"; "elapsed_time"; "status_code"] /\
  sent outcome.2 = [request].
Proof.
  intros [message response Hnet | r Hnet Hstatus].
  - rewrite (quote_transport_error _ _ _ _ _ _ _ _ _ _ _ _ Hnet).
    unfold failure_record; cbn. eauto 10.
  - destruct (proj2 (http_error_iff r) Hstatus) as [message Hmsg].
    rewrite (quote_http_error _ _ _ _ _ _ _ _ _ _ _ _ Hnet Hmsg).
    unfold failure_record; cbn. eauto 10.
Qed.

(** C7, as amended.  Every call whose sell amount [str()] can write -
    every call when the interpreter's limit on digits is off, and under a
    limit every amount with no more digits than it - sends exactly one
    request: a GET to the configured URL with the query parameters
    [sellToken], [buyToken], [sellAmount] (the sell amount as decimal
    text), [taker] (the argument, or [USER_ADDRESS] when it is left out)
    and [chainId], and with the headers [accept], [content-type],
    [0x-api-key] (the provider's key) and [0x-version: v2]. *)
Theorem one_get_request int_max_str_digits :
  PyInt.fits int_max_str_digits from_amount = true ->
  sent (quote_limited settings USER_ADDRESS TOKEN_DECIMALS self chain
          from_token to_token from_amount user_address env
          int_max_str_digits).2 =
    [ {| method := "GET";
         request_url := url settings;
         headers := [("accept", "*/*");
                     ("content-type", "application/json");
                     ("0x-api-key", self_api_key self);
                     ("0x-version", "v2")];
         params := [("sellToken", from_token);
                    ("buyToken", to_token);
                    ("sellAmount", PyInt.str from_amount);
                    ("taker", match user_address with
                              | Some a => a
                              | None => USER_ADDRESS
                              end);
                    ("chainId", chain)];
         timeout := 10 |} ]
  /\ self_api_key (init settings) = api_key settings.
Proof.
  intros Hfits. split; [|reflexivity].
  rewrite (quote_limited_fits _ _ _ _ _ _ _ _ _ _ _ Hfits).
  rewrite quote_sends_once. destruct user_address; reflexivity.
Qed.

(** C8.  Presence is decided by truthiness: on a 2xx response whose JSON
    object holds a falsy [buyAmount] - in particular the number [0], the
    empty string, [null] or [false] - [output_amount] is [None], the very
    value of every call whose 2xx response lacks the key. *)
Theorem falsy_amount_is_missing r items raw :
  answered r items ->
  Py.dict_get "buyAmount" items = Some raw ->
  Py.truthy raw = false \/
    In raw [VInt 0; VStr EmptyString; VNone; VBool false] ->
  field "output_amount" outcome.1 = Some VNone /\
  forall env' r' items',
    answered_2xx settings USER_ADDRESS self chain from_token to_token
                 from_amount user_address env' r' items' ->
    Py.dict_get "buyAmount" items' = None ->
    field "output_amount"
          (quote settings USER_ADDRESS TOKEN_DECIMALS self chain from_token
                 to_token from_amount user_address env').1
    = field "output_amount" outcome.1.
Proof.
  intros Hr Hraw Hfalsy.
  assert (Ht : Py.truthy raw = false).
  { destruct Hfalsy as [H | H]; [exact H|].
    cbn in H. intuition (subst; reflexivity). }
  rewrite (quote_2xx _ _ _ _ _ _ _ _ _ _ _ _ Hr), Hraw. cbn.
  rewrite (formatted_output_falsy _ _ _ Ht). split; [reflexivity|].
  intros env' r' items' Hr' Hraw'.
  rewrite (quote_2xx _ _ _ _ _ _ _ _ _ _ _ _ Hr'), Hraw'. reflexivity.
Qed.

(** C9.  On a 2xx response whose JSON object holds a truthy [buyAmount],
    when the conversion raises (the amount is no number, or [10 ** d]
    is too large for a float), also for a buy token with known
    decimals, the call returns normally with [output_amount] equal to
    [str(buyAmount)] and without an [error] key. *)
Theorem conversion_error_falls_back r items raw e :
  answered r items ->
  Py.dict_get "buyAmount" items = Some raw ->
  Py.truthy raw = true ->
  convert TOKEN_DECIMALS to_token raw = inl e ->
  returned outcome.1 = true /\
  field "output_amount" outcome.1 = Some (VStr (Py.str raw)) /\
  field "error" outcome.1 = None.
Proof.
  intros Hr Hraw Ht He.
  rewrite (quote_2xx _ _ _ _ _ _ _ _ _ _ _ _ Hr), Hraw. cbn.
  rewrite (formatted_output_error _ _ _ _ Ht He). auto.
Qed.

(** C10, as amended.  The chain argument is not checked: for every chain
    string, supported or not, a call whose sell amount [str()] can write
    sends its one request with that chain unchanged as [chainId]; and
    chain ["999"], which [CHAIN_CONFIG] configures, is not in
    [supported_chains]. *)
Theorem chain_is_not_validated int_max_str_digits :
  PyInt.fits int_max_str_digits from_amount = true ->
  (exists req,
     sent (quote_limited settings USER_ADDRESS TOKEN_DECIMALS self chain
             from_token to_token from_amount user_address env
             int_max_str_digits).2 = [req] /\
     query_param "chainId" req = Some chain) /\
  ~ In "999" (supported_chains self) /\
  chain_config "999" = Some hyperevm.
Proof.
  intros Hfits. split; [|split].
  - exists request. rewrite (quote_limited_fits _ _ _ _ _ _ _ _ _ _ _ Hfits).
    split; [apply quote_sends_once | reflexivity].
  - cbn. intuition discriminate.
  - reflexivity.
Qed.

End Claims.

(** C2.  Chain ["999"], one USDe (18 decimals, [1000000000000000000] base
    units) sold for USDT0, whose decimal count in the table is 6: when the
    API answers 2xx with [buyAmount = "2000000"], [output_amount] is
    ["2.0"]. *)
Theorem scenario_USDe_to_USDT0
    settings USER_ADDRESS (TOKEN_DECIMALS : gmap string N) self user_address
    env r items :
  TOKEN_DECIMALS !! PyStr.lower Sample.USDT0 = Some 6%N ->
  answered_2xx settings USER_ADDRESS self "999" Sample.USDe Sample.USDT0
               1000000000000000000 user_address env r items ->
  Py.dict_get "buyAmount" items = Some (VStr "2000000") ->
  field "output_amount"
        (quote settings USER_ADDRESS TOKEN_DECIMALS self "999" Sample.USDe
               Sample.USDT0 1000000000000000000 user_address env).1
  = Some (VStr "2.0").
Proof.
  intros Hd Hr Hraw.
  rewrite (quote_2xx _ _ _ _ _ _ _ _ _ _ _ _ Hr), Hraw.
  cbn -[ZeroxProvider.formatted_output].
  rewrite (formatted_output_known _ _ (VStr "2000000")
             (S754_finite false 8589934592000000 (-32)) 6%N);
    [ | reflexivity | exact Hd | lia | vm_compute; reflexivity ].
  vm_compute. reflexivity.
Qed.

(** The two tokens of the scenario as [CHAIN_CONFIG] lists them. *)
Lemma scenario_tokens :
  normalization_token hyperevm = mkToken Sample.USDe "USDe" 18 /\
  In (mkToken Sample.USDT0 "USDT0" 6) (trading_tokens hyperevm) /\
  TOKEN_DECIMALS_of_config !! PyStr.lower Sample.USDT0 = Some 6%N.
Proof. split; [reflexivity | split; [left; reflexivity | vm_compute; reflexivity]]. Qed.

(** No address of [CHAIN_CONFIG] is listed with two decimal counts. *)
Lemma config_decimals_agree :
  forallb (fun t => bool_decide
             (TOKEN_DECIMALS_of_config !! PyStr.lower (address t)
              = Some (decimals t)))
          (concat (map (fun kv => chain_tokens (snd kv)) CHAIN_CONFIG))
  = true.
Proof. vm_compute. reflexivity. Qed.

(** C4 (a defect of the code).  A 404 answer is a failure whose response
    is at hand, yet the record's [status_code] is [None], not [404]: a
    response with an error status is false as a condition, so line 87
    takes its [else] branch. *)
Theorem status_of_404_is_dropped :
  let out := (Sample.quote_of Sample.USDT0
                (Sample.status_only 404 "Not Found")).1 in
  field "status_code" out = Some VNone /\
  field "error" out
  = Some (VStr "404 Client Error: Not Found for url: https://api.0x.org/swap/permit2/quote").
Proof. vm_compute. split; reflexivity. Qed.

(** The same for every 4xx and 5xx answer. *)
Lemma error_status_is_dropped
    settings USER_ADDRESS TOKEN_DECIMALS self chain from_token to_token
    from_amount user_address env r :
  network env (quote_request settings USER_ADDRESS self chain from_token
                             to_token from_amount user_address) = inr r ->
  400 <= status_code r <= 599 ->
  field "status_code"
        (quote settings USER_ADDRESS TOKEN_DECIMALS self chain from_token
               to_token from_amount user_address env).1
  = Some VNone.
Proof.
  intros Hnet Hstatus.
  destruct (proj2 (http_error_iff r) Hstatus) as [message Hmsg].
  rewrite (quote_http_error _ _ _ _ _ _ _ _ _ _ _ _ Hnet Hmsg). reflexivity.
Qed.

(** A status is reported only for an exception that carries a response
    with a status outside 400..599, as [TooManyRedirects] does. *)
Lemma status_reported_iff (response : option Response) (status : Z) :
  ZeroxProvider.status_or_none response = VInt status <->
  exists r, response = Some r /\ status_code r = status /\
            ~ 400 <= status_code r <= 599.
Proof.
  unfold ZeroxProvider.status_or_none, ZeroxProvider.response_truthy,
    requests.ok.
  split.
  - destruct response as [r|]; [|discriminate].
    destruct (requests.http_error_msg r) eqn:E; [discriminate|].
    intros [= <-]. exists r. repeat split.
    intros H. apply http_error_iff in H. rewrite E in H.
    destruct H as [? H]; discriminate H.
  - intros (r & -> & <- & H). rewrite (http_error_none r H). reflexivity.
Qed.

(** ** Where the claims stop holding *)

(** C1, as stated, fails for the amount [0] sent as a JSON number: the
    token is USDT0 with 6 known decimals and the formula of the
    specification gives ["0.0"], but [output_amount] is [None]. *)
Lemma zero_amount_is_not_scaled :
  let out := (Sample.quote_of Sample.USDT0 (Sample.ok_with (VInt 0))).1 in
  TOKEN_DECIMALS_of_config !! PyStr.lower Sample.USDT0 = Some 6%N /\
  Spec.output_amount 0 6 = Some "0.0" /\
  field "output_amount" out = Some VNone /\
  field "output_amount" out <> VStr <$> Spec.output_amount 0 6.
Proof. vm_compute. repeat split; discriminate. Qed.

(** C3, as stated, fails for the amount [0] sent as a JSON number: the
    token is in no table and [str(0)] is ["0"], but [output_amount] is
    [None]. *)
Lemma zero_amount_is_not_copied :
  let out := (Sample.quote_of Sample.unlisted (Sample.ok_with (VInt 0))).1 in
  TOKEN_DECIMALS_of_config !! PyStr.lower Sample.unlisted = None /\
  Py.str (VInt 0) = "0" /\
  field "output_amount" out = Some VNone /\
  field "output_amount" out <> Some (VStr (Py.str (VInt 0))).
Proof. vm_compute. repeat split; discriminate. Qed.

(** C5, as stated, fails for a 200 response whose JSON body is the empty
    array: it does not contain the key, and the call raises
    [AttributeError] to its caller. *)
Lemma array_body_raises :
  let out := (Sample.quote_of Sample.USDT0
                (constant_env (inr (json_response 200 (VList []))))).1 in
  out = inl (OtherError "AttributeError"
                        "'list' object has no attribute 'get'") /\
  returned out = false /\
  field "output_amount" out = None.
Proof. vm_compute. repeat split. Qed.

(** C6, as stated, fails for the status 300, which is not 2xx: the call
    goes down the success path, and the record has an [output_amount] and
    a [raw_response] and no [error]. *)
Lemma status_300_is_no_failure :
  let out := (Sample.quote_of Sample.USDT0
                (constant_env
                   (inr (json_response 300
                           (VDict [("buyAmount", VStr "2000000")]))))).1 in
  ~ 200 <= 300 <= 299 /\
  field "error" out = None /\
  field "output_amount" out = Some (VStr "2.0") /\
  field "raw_response" out = Some (VDict [("buyAmount", VStr "2000000")]) /\
  field "status_code" out = Some (VInt 300) /\
  ~ failure_record out.
Proof.
  cbv zeta. split; [lia|].
  assert (E : (Sample.quote_of Sample.USDT0
                 (constant_env
                    (inr (json_response 300
                            (VDict [("buyAmount", VStr "2000000")]))))).1
              = inr (VDict [("name", VStr "0x");
                            ("output_amount", VStr "2.0");
                            ("elapsed_time", VFloat (PyFloat.of_ratio false 1 1));
                            ("status_code", VInt 300);
                            ("raw_response",
                              VDict [("buyAmount", VStr "2000000")])]))
    by (vm_compute; reflexivity).
  rewrite E. repeat split.
  intros (_ & (message & H) & _). discriminate H.
Qed.

(** C7, as stated, fails under the default limit of 4300 digits for the
    sell amount [10^4300], which has 4301: line 31 raises [ValueError]
    and no request is sent. *)
Lemma long_amount_sends_nothing :
  let run := quote_limited Sample.settings Sample.USER_ADDRESS
               TOKEN_DECIMALS_of_config Sample.self "999" Sample.USDe
               Sample.USDT0 (10 ^ 4300) None
               (Sample.ok_with (VStr "2000000")) 4300 in
  PyInt.ndigits (10 ^ 4300) = 4301 /\
  run.1 = inl (OtherError "ValueError" (PyInt.limit_message 4300)) /\
  sent run.2 = [] /\
  clock_reads run.2 = 0%nat.
Proof.
  assert (Hdigits : PyInt.ndigits (10 ^ 4300) = 4301)
    by (vm_compute; reflexivity).
  cbv zeta. split; [exact Hdigits|].
  rewrite quote_limited_too_long; [repeat split|].
  unfold PyInt.fits. rewrite Hdigits. reflexivity.
Qed.

(** C10, as stated, fails likewise: with a sell amount of 4301 digits no
    request carries the chain, here the supported chain ["9745"]. *)
Lemma long_amount_sends_no_chain :
  let run := quote_limited Sample.settings Sample.USER_ADDRESS
               TOKEN_DECIMALS_of_config Sample.self "9745" Sample.USDe
               Sample.USDT0 (- 10 ^ 4300) None
               (Sample.ok_with (VStr "2000000")) 4300 in
  In "9745" (ZeroxProvider.supported_chains Sample.self) /\
  PyInt.ndigits (- 10 ^ 4300) = 4301 /\
  returned run.1 = false /\
  sent run.2 = [].
Proof.
  assert (Hdigits : PyInt.ndigits (- 10 ^ 4300) = 4301)
    by (vm_compute; reflexivity).
  cbv zeta. split; [cbn; tauto|]. split; [exact Hdigits|].
  rewrite quote_limited_too_long; [repeat split|].
  unfold PyInt.fits. rewrite Hdigits. reflexivity.
Qed.

(** ** The claims at sample inputs *)

(** C7 under the default limit of 4300 digits, one unit of USDe sold. *)
Lemma one_get_request_witness :
  sent (quote_limited Sample.settings Sample.USER_ADDRESS
          TOKEN_DECIMALS_of_config Sample.self "999" Sample.USDe
          Sample.USDT0 Sample.one_USDe None
          (Sample.ok_with (VStr "2000000")) 4300).2 =
    [ {| method := "GET";
         request_url := "https://api.0x.org/swap/permit2/quote";
         headers := [("accept", "*/*");
                     ("content-type", "application/json");
                     ("0x-api-key", "k-1");
                     ("0x-version", "v2")];
         params := [("sellToken", Sample.USDe);
                    ("buyToken", Sample.USDT0);
                    ("sellAmount", "1000000000000000000");
                    ("taker", Sample.USER_ADDRESS);
                    ("chainId", "999")];
         timeout := 10 |} ]
  /\ ZeroxProvider.self_api_key (ZeroxProvider.init Sample.settings) = "k-1".
Proof.
  apply (one_get_request Sample.settings Sample.USER_ADDRESS
           TOKEN_DECIMALS_of_config Sample.self "999" Sample.USDe
           Sample.USDT0 Sample.one_USDe None
           (Sample.ok_with (VStr "2000000")) 4300).
  vm_compute. reflexivity.
Defined.

(** C10 under the default limit, at chain ["999"], which is not among the
    supported chains. *)
Lemma chain_is_not_validated_witness :
  (exists req,
     sent (quote_limited Sample.settings Sample.USER_ADDRESS
             TOKEN_DECIMALS_of_config Sample.self "999" Sample.USDe
             Sample.USDT0 Sample.one_USDe None
             (Sample.status_only 200 "OK") 4300).2 = [req] /\
     query_param "chainId" req = Some "999") /\
  ~ In "999" (ZeroxProvider.supported_chains Sample.self) /\
  chain_config "999" = Some hyperevm.
Proof.
  apply (chain_is_not_validated Sample.settings Sample.USER_ADDRESS
           TOKEN_DECIMALS_of_config Sample.self "999" Sample.USDe
           Sample.USDT0 Sample.one_USDe None
           (Sample.status_only 200 "OK") 4300).
  vm_compute. reflexivity.
Defined.

(** C1 at UBTC (8 decimals) and [buyAmount = "123456789"]. *)
Lemma output_amount_scaled_witness :
  field "output_amount"
        (Sample.quote_of Sample.UBTC (Sample.ok_with (VStr "123456789"))).1
  = Some (VStr "1.23456789").
Proof.
  refine (eq_trans
    (output_amount_scaled Sample.settings Sample.USER_ADDRESS
       TOKEN_DECIMALS_of_config Sample.self "999" Sample.USDe Sample.UBTC
       Sample.one_USDe None (Sample.ok_with (VStr "123456789"))
       (json_response 200 (VDict [("buyAmount", VStr "123456789")]))
       [("buyAmount", VStr "123456789")] (VStr "123456789")
       (S754_finite false 8285044862877696 (-26)) 8%N
       _ _ _ _ _ _) _).
  - split; [reflexivity | split; [cbn; lia | reflexivity]].
  - reflexivity.
  - reflexivity.
  - vm_compute. reflexivity.
  - vm_compute. reflexivity.
  - lia.
  - vm_compute. reflexivity.
Defined.

(** C2 with the table assembled from [CHAIN_CONFIG] and a 200 answer. *)
Lemma scenario_USDe_to_USDT0_witness :
  field "output_amount"
        (Sample.quote_of Sample.USDT0 (Sample.ok_with (VStr "2000000"))).1
  = Some (VStr "2.0").
Proof.
  apply (scenario_USDe_to_USDT0 Sample.settings Sample.USER_ADDRESS
           TOKEN_DECIMALS_of_config Sample.self None
           (Sample.ok_with (VStr "2000000"))
           (json_response 200 (VDict [("buyAmount", VStr "2000000")]))
           [("buyAmount", VStr "2000000")]).
  - vm_compute. reflexivity.
  - split; [reflexivity | split; [cbn; lia | reflexivity]].
  - reflexivity.
Defined.

(** C3 at the scenario of the specification: an address outside the
    table and [buyAmount = "123456"]. *)
Lemma output_amount_unconverted_witness :
  let out := (Sample.quote_of Sample.unlisted
                (Sample.ok_with (VStr "123456"))).1 in
  returned out = true /\
  field "output_amount" out = Some (VStr "123456") /\
  field "error" out = None.
Proof.
  apply (output_amount_unconverted Sample.settings Sample.USER_ADDRESS
           TOKEN_DECIMALS_of_config Sample.self "999" Sample.USDe
           Sample.unlisted Sample.one_USDe None
           (Sample.ok_with (VStr "123456"))
           (json_response 200 (VDict [("buyAmount", VStr "123456")]))
           [("buyAmount", VStr "123456")] (VStr "123456")).
  - split; [reflexivity | split; [cbn; lia | reflexivity]].
  - reflexivity.
  - reflexivity.
  - vm_compute. reflexivity.
Defined.

(** C5 at a 200 answer whose body is the empty object. *)
Lemma output_amount_none_without_key_witness :
  let out := (Sample.quote_of Sample.USDT0 (Sample.status_only 200 "OK")).1 in
  returned out = true /\ field "output_amount" out = Some VNone.
Proof.
  apply (output_amount_none_without_key Sample.settings Sample.USER_ADDRESS
           TOKEN_DECIMALS_of_config Sample.self "999" Sample.USDe
           Sample.USDT0 Sample.one_USDe None (Sample.status_only 200 "OK")
           {| status_code := 200; reason := "OK";
              response_url := url Sample.settings;
              body := JsonBody (VDict []) |} []).
  - split; [reflexivity | split; [cbn; lia | reflexivity]].
  - reflexivity.
Defined.

(** C6 at the scenario of the specification: the request times out. *)
Lemma failure_is_returned_witness :
  let run := Sample.quote_of Sample.USDT0
               (constant_env (inl (RequestException "timed out" None))) in
  returned run.1 = true /\
  failure_record run.1 /\
  keys run.1 = ["name"; "error"; "elapsed_time"; "status_code"] /\
  sent run.2
  = [quote_request Sample.settings Sample.USER_ADDRESS Sample.self "999"
                   Sample.USDe Sample.USDT0 Sample.one_USDe None].
Proof.
  apply (failure_is_returned Sample.settings Sample.USER_ADDRESS
           TOKEN_DECIMALS_of_config Sample.self "999" Sample.USDe
           Sample.USDT0 Sample.one_USDe None
           (constant_env (inl (RequestException "timed out" None)))).
  apply (transport_raises _ _ _ _ _ _ _ _ _ "timed out" None). reflexivity.
Defined.

(** C8 at the amount [0], against the response without the key. *)
Lemma falsy_amount_is_missing_witness :
  field "output_amount"
        (Sample.quote_of Sample.USDT0 (Sample.ok_with (VInt 0))).1
  = Some VNone /\
  field "output_amount"
        (Sample.quote_of Sample.USDT0 (Sample.status_only 200 "OK")).1
  = field "output_amount"
          (Sample.quote_of Sample.USDT0 (Sample.ok_with (VInt 0))).1.
Proof.
  destruct (falsy_amount_is_missing Sample.settings Sample.USER_ADDRESS
              TOKEN_DECIMALS_of_config Sample.self "999" Sample.USDe
              Sample.USDT0 Sample.one_USDe None (Sample.ok_with (VInt 0))
              (json_response 200 (VDict [("buyAmount", VInt 0)]))
              [("buyAmount", VInt 0)] (VInt 0)) as [Hnone Hsame].
  - split; [reflexivity | split; [cbn; lia | reflexivity]].
  - reflexivity.
  - left. reflexivity.
  - split; [exact Hnone|].
    apply (Hsame (Sample.status_only 200 "OK")
                 {| status_code := 200; reason := "OK";
                    response_url := url Sample.settings;
                    body := JsonBody (VDict []) |} []).
    + split; [reflexivity | split; [cbn; lia | reflexivity]].
    + reflexivity.
Defined.

(** C9 at USDT0, whose decimals are known, and [buyAmount = "abc"]. *)
Lemma conversion_error_falls_back_witness :
  let out := (Sample.quote_of Sample.USDT0 (Sample.ok_with (VStr "abc"))).1 in
  returned out = true /\
  field "output_amount" out = Some (VStr "abc") /\
  field "error" out = None.
Proof.
  apply (conversion_error_falls_back Sample.settings Sample.USER_ADDRESS
           TOKEN_DECIMALS_of_config Sample.self "999" Sample.USDe
           Sample.USDT0 Sample.one_USDe None (Sample.ok_with (VStr "abc"))
           (json_response 200 (VDict [("buyAmount", VStr "abc")]))
           [("buyAmount", VStr "abc")] (VStr "abc") ValueError).
  - split; [reflexivity | split; [cbn; lia | reflexivity]].
  - reflexivity.
  - reflexivity.
  - vm_compute. reflexivity.
Defined.

(** ** The arithmetic at sample values *)

Example repr_samples :
  map (fun '(a, b) => PyFloat.repr (PyFloat.of_ratio false a b))
      [(2, 1); (1, 10); (1, 3); (10 ^ 16, 1); (10 ^ 15, 1); (1, 10 ^ 4);
       (1, 10 ^ 5); (123456, 1000); (2 * 10 ^ 16 + 8, 1); (1, 2 ^ 1074)]
  = ["2.0"; "0.1"; "0.3333333333333333"; "1e+16"; "1000000000000000.0";
     "0.0001"; "1e-05"; "123.456"; "2.000000000000001e+16"; "5e-324"].
Proof. vm_compute. reflexivity. Qed.

Example float_of_str_samples :
  map (fun s => PyFloat.repr <$> FloatParse.of_str s)
      ["2000000"; " 1_000.5e-3 "; "-0"; "+.5"; "1."; "-Infinity"; "nAn";
       "1e400"; "abc"; "."; "1e"; "1__0"; "0x10"; "1 2"]
  = [Some "2000000.0"; Some "1.0005"; Some "-0.0"; Some "0.5"; Some "1.0";
     Some "-inf"; Some "nan"; Some "inf"; None; None; None; None; None;
     None].
Proof. vm_compute. reflexivity. Qed.

Example str_samples :
  map Py.str [VNone; VBool true; VInt (-12); VStr "12";
              VList [VInt 1; VStr "a"]; VDict [("k", VNone)]]
  = ["None"; "True"; "-12"; "12"; "[1, 'a']"; "{'k': None}"].
Proof. vm_compute. reflexivity. Qed.

(** The code rounds twice, once when it reads the amount as a float and
    once when it divides; the true quotient of the integers is rounded
    once.  From [2^53] on the two can differ in the last digit. *)
Example double_rounding_sample :
  (fun x => scaled x 18) <$> FloatParse.of_str "9007199254740995"
  = Some "0.009007199254740996" /\
  Spec.output_amount 9007199254740995 18 = Some "0.009007199254740994".
Proof. vm_compute. split; reflexivity. Qed.

(** The separators [U+001C..U+001F] are no spaces for [float()]: an
    amount that starts with one is no number, and the call falls back to
    the text as it came. *)
Example separator_is_no_space_sample :
  let amount := String (PyStr.chr 31) "12" in
  FloatParse.of_str amount = None /\
  FloatParse.of_str (String (PyStr.chr 160) "12") <> None /\
  field "output_amount"
        (Sample.quote_of Sample.USDT0 (Sample.ok_with (VStr amount))).1
  = Some (VStr amount).
Proof. vm_compute. repeat split; discriminate. Qed.

(** The default limit of 4300 digits admits [10^4300 - 1] and refuses
    [10^4300]; with the limit off both are written. *)
Example digit_limit_sample :
  map (fun limit => (PyInt.fits limit (10 ^ 4300 - 1),
                     PyInt.fits limit (10 ^ 4300)))
      [4300; 0]
  = [(true, false); (true, true)].
Proof. vm_compute. reflexivity. Qed.

(** A decimal count of 309 or more cannot be converted: the power of ten
    is no float, the division raises [OverflowError]. *)
Example decimals_too_large_sample :
  ZeroxProvider.convert {[ Sample.unlisted := 309%N ]} Sample.unlisted
                        (VStr "2000000")
  = inl OverflowError.
Proof. vm_compute. reflexivity. Qed.

(** A response that fails with an error status is false as a condition;
    without a response, and with a redirect response, the condition reads
    as it looks. *)
Example response_truthy_samples :
  map ZeroxProvider.status_or_none
      [None;
       Some (json_response 302 VNone);
       Some (json_response 404 VNone);
       Some (json_response 503 VNone)]
  = [VNone; VInt 302; VNone; VNone].
Proof. vm_compute. reflexivity. Qed.

(** * Further properties *)

(** ** The text of an integer read as a float *)

Lemma numeral_digits u : Forall (fun c => PyStr.is_digit c = true) (numeral u).
Proof. induction u; constructor; (reflexivity || assumption). Qed.

Lemma digit_no_space c : PyStr.is_digit c = true -> PyStr.is_space c = false.
Proof.
  unfold PyStr.is_digit, PyStr.is_space. generalize (PyStr.code c). intros n H.
  apply andb_prop in H as [H1 H2].
  apply Z.leb_le in H1. apply Z.leb_le in H2.
  repeat match goal with
  | |- context [?a <=? ?b] => destruct (Z.leb_spec a b)
  | |- context [?a =? ?b] => destruct (Z.eqb_spec a b)
  end; cbn; try reflexivity; lia.
Qed.

Lemma digit_no_underscore c : PyStr.is_digit c = true -> Ascii.eqb c "_" = false.
Proof.
  destruct (Ascii.eqb_spec c "_") as [->|]; [discriminate | reflexivity].
Qed.

Lemma strip_left_head c s :
  PyStr.is_space c = false -> FloatParse.strip_left (c :: s) = c :: s.
Proof. intros H. cbn. rewrite H. reflexivity. Qed.

Lemma strip_left_last s c :
  PyStr.is_space c = false ->
  FloatParse.strip_left (rev (s ++ [c])) = rev (s ++ [c]).
Proof. intros H. rewrite rev_app_distr. cbn. rewrite H. reflexivity. Qed.

(** Text that starts and ends with a character that is no space is not
    changed by stripping. *)
Lemma strip_no_space s :
  Forall (fun c => PyStr.is_space c = false) s -> FloatParse.strip s = s.
Proof.
  intros H. unfold FloatParse.strip.
  destruct s as [|c s]; [reflexivity|].
  rewrite strip_left_head by (inversion H; assumption).
  destruct (exists_last (l := c :: s)) as (s' & c' & E); [discriminate|].
  rewrite E in *. rewrite strip_left_last, rev_involutive; [reflexivity|].
  rewrite Forall_app in H. destruct H as [_ H]. inversion H; assumption.
Qed.

Lemma drop_underscores_none prev s :
  prev <> Some "_"%char ->
  Forall (fun c => Ascii.eqb c "_" = false) s ->
  FloatParse.drop_underscores prev s = Some s.
Proof.
  intros Hp H. revert prev Hp. induction H as [|c s Hc _ IH]; intros prev Hp; cbn.
  - destruct (decide (prev = Some "_"%char)); [contradiction | reflexivity].
  - rewrite Hc. destruct (decide (prev = Some "_"%char)); [contradiction|].
    rewrite IH; [reflexivity|].
    intros [= ->]. discriminate Hc.
Qed.

Lemma digits_step acc len c s :
  PyStr.is_digit c = true ->
  FloatParse.digits acc len (c :: s)
  = FloatParse.digits (10 * acc + (PyStr.code c - 48)) (len + 1) s.
Proof. intros H. cbn [FloatParse.digits]. rewrite H. reflexivity. Qed.

Ltac digit_value :=
  match goal with
  | |- context [PyStr.code ?c] =>
      let v := eval vm_compute in (PyStr.code c) in
      change (PyStr.code c) with v
  end.

Ltac digit_case IH :=
  cbn [NilEmpty.string_of_uint list_ascii_of_string Pos.of_uint_acc
       Pos.of_uint Decimal.nb_digits];
  rewrite digits_step by reflexivity; digit_value;
  match goal with
  | |- FloatParse.digits ?a _ _ = (Zpos (Pos.of_uint_acc _ ?b), _, _) =>
      replace a with (Zpos b) by lia
  | |- FloatParse.digits ?a _ _ = (Z.of_N (Npos (Pos.of_uint_acc _ ?b)), _, _) =>
      replace a with (Zpos b) by lia
  | |- FloatParse.digits ?a _ _ = _ =>
      replace a with 0 by lia
  end;
  rewrite IH; f_equal; f_equal; lia.

Lemma digits_acc u acc len :
  FloatParse.digits (Zpos acc) len (numeral u)
  = (Zpos (Pos.of_uint_acc u acc), len + numeral_length u, []).
Proof.
  revert acc len. unfold numeral, numeral_length.
  induction u; intros acc len; [cbn; f_equal; f_equal; lia | ..];
    digit_case IHu.
Qed.

Lemma digits_numeral u len :
  FloatParse.digits 0 len (numeral u)
  = (Z.of_N (Pos.of_uint u), len + numeral_length u, []).
Proof.
  revert len. unfold numeral, numeral_length.
  induction u; intros len; [cbn; f_equal; f_equal; lia | ..];
    first [ digit_case IHu
          | pose proof (digits_acc u) as Hacc; unfold numeral, numeral_length in Hacc;
            digit_case Hacc ].
Qed.

Lemma numeral_length_positive u : u <> Decimal.Nil -> 0 < numeral_length u.
Proof. unfold numeral_length. destruct u; [congruence | ..]; cbn; lia. Qed.

Lemma numeral_head u :
  u <> Decimal.Nil ->
  exists c s, numeral u = c :: s /\ PyStr.is_digit c = true.
Proof.
  unfold numeral. destruct u; [congruence | ..]; intros _;
    eexists; eexists; (split; [reflexivity | reflexivity]).
Qed.

Lemma sign_digit c s :
  PyStr.is_digit c = true -> FloatParse.sign (c :: s) = (false, c :: s).
Proof.
  intros H. unfold FloatParse.sign.
  destruct (Ascii.eqb_spec c "-") as [->|]; [discriminate H|].
  destruct (Ascii.eqb_spec c "+") as [->|]; [discriminate H|]. reflexivity.
Qed.

Lemma inf_or_nan_digit neg c s :
  PyStr.is_digit c = true -> FloatParse.inf_or_nan neg (c :: s) = None.
Proof.
  intros H. unfold FloatParse.inf_or_nan, FloatParse.lower_text.
  cbn [string_of_list_ascii PyStr.lower].
  assert (E : PyStr.lower_char c = c).
  { unfold PyStr.lower_char. unfold PyStr.is_digit in H.
    destruct (PyStr.code c) eqn:Ec; try discriminate H.
    apply andb_prop in H as [H1 H2].
    apply Z.leb_le in H1. apply Z.leb_le in H2.
    repeat match goal with
    | |- context [?a <=? ?b] => destruct (Z.leb_spec a b)
    | |- context [?a =? ?b] => destruct (Z.eqb_spec a b)
    end; cbn; try reflexivity; lia. }
  rewrite E.
  assert (Hi : Ascii.eqb c "i" = false)
    by (destruct (Ascii.eqb_spec c "i") as [->|]; [discriminate H | reflexivity]).
  assert (Hn : Ascii.eqb c "n" = false)
    by (destruct (Ascii.eqb_spec c "n") as [->|]; [discriminate H | reflexivity]).
  cbn [String.eqb]. rewrite Hi, Hn. reflexivity.
Qed.

(** A numeral is a decimal literal. *)
Lemma decimal_numeral neg u :
  u <> Decimal.Nil ->
  FloatParse.decimal neg (numeral u)
  = Some (PyFloat.of_ratio neg (Z.of_N (Pos.of_uint u)) 1).
Proof.
  intros Hu. unfold FloatParse.decimal. rewrite digits_numeral.
  pose proof (numeral_length_positive u Hu) as Hs.
  replace (0 <? 0 + numeral_length u + 0) with true by (symmetry; apply Z.ltb_lt; lia).
  cbn [FloatParse.exponent]. unfold PyFloat.of_decimal.
  replace (0 <=? 0 - 0) with true by reflexivity.
  replace (0 - 0) with 0 by reflexivity.
  rewrite Z.pow_0_r, Z.mul_1_r. reflexivity.
Qed.

Lemma of_str_numeral (neg : bool) (u : Decimal.uint) :
  u <> Decimal.Nil ->
  FloatParse.of_str
    (string_of_list_ascii ((if neg then ["-"%char] else @nil ascii) ++ numeral u))
  = Some (PyFloat.of_ratio neg (Z.of_N (Pos.of_uint u)) 1).
Proof.
  intros Hu. unfold FloatParse.of_str.
  rewrite list_ascii_of_string_of_list_ascii.
  pose proof (numeral_digits u) as Hd.
  assert (Hspace : Forall (fun c => PyStr.is_space c = false)
                     ((if neg then ["-"%char] else @nil ascii) ++ numeral u)).
  { apply Forall_app. split.
    - destruct neg; repeat constructor.
    - eapply Forall_impl; [exact Hd | apply digit_no_space]. }
  assert (Hunder : Forall (fun c => Ascii.eqb c "_" = false)
                     ((if neg then ["-"%char] else @nil ascii) ++ numeral u)).
  { apply Forall_app. split.
    - destruct neg; repeat constructor.
    - eapply Forall_impl; [exact Hd | apply digit_no_underscore]. }
  rewrite strip_no_space by exact Hspace.
  rewrite drop_underscores_none by (congruence || exact Hunder).
  destruct (numeral_head u Hu) as (c & s & E & Hc).
  assert (Hsign : FloatParse.sign ((if neg then ["-"%char] else @nil ascii) ++ numeral u)
                  = (neg, numeral u)).
  { destruct neg; [reflexivity|]. cbn [app]. rewrite E. apply sign_digit, Hc. }
  rewrite Hsign. rewrite E, inf_or_nan_digit by exact Hc. rewrite <- E.
  apply decimal_numeral, Hu.
Qed.

(** [float(str(n))] is the float nearest to [n], for every integer [n];
    where [float(n)] overflows, the text reads as an infinity. *)
Lemma float_of_int_text (n : Z) :
  FloatParse.of_str (PyInt.str n)
  = Some (PyFloat.of_ratio (n <? 0) (Z.abs n) 1).
Proof.
  destruct n as [|p|p].
  - reflexivity.
  - pose proof (of_str_numeral false (Pos.to_uint p)
                  (Unsigned.to_uint_nonnil p)) as H.
    rewrite Unsigned.of_to in H. cbn [app] in H.
    unfold numeral in H. rewrite string_of_list_ascii_of_string in H.
    unfold PyInt.str. cbn [Z.to_int NilZero.string_of_int].
    unfold NilZero.string_of_uint.
    destruct (Pos.to_uint p) eqn:E;
      [exfalso; eapply Unsigned.to_uint_nonnil; exact E | ..]; exact H.
  - pose proof (of_str_numeral true (Pos.to_uint p)
                  (Unsigned.to_uint_nonnil p)) as H.
    rewrite Unsigned.of_to in H. cbn [app] in H.
    unfold numeral in H. cbn [string_of_list_ascii] in H.
    rewrite string_of_list_ascii_of_string in H.
    unfold PyInt.str. cbn [Z.to_int NilZero.string_of_int].
    unfold NilZero.string_of_uint.
    destruct (Pos.to_uint p) eqn:E;
      [exfalso; eapply Unsigned.to_uint_nonnil; exact E | ..]; exact H.
Qed.

Lemma lower_char_idempotent c :
  PyStr.lower_char (PyStr.lower_char c) = PyStr.lower_char c.
Proof. destruct c as [[|] [|] [|] [|] [|] [|] [|] [|]]; reflexivity. Qed.

Lemma lower_idempotent s : PyStr.lower (PyStr.lower s) = PyStr.lower s.
Proof.
  induction s as [|c s IH]; [reflexivity|].
  cbn [PyStr.lower]. rewrite lower_char_idempotent, IH. reflexivity.
Qed.

(** The text of an integer is never empty. *)
Lemma int_text_not_empty n : String.eqb (PyInt.str n) EmptyString = false.
Proof.
  destruct (PyInt.str n) eqn:E; [|reflexivity].
  pose proof (float_of_int_text n) as H. rewrite E in H. discriminate H.
Qed.

Lemma float_of_int_value n x :
  PyFloat.of_int n = Some x -> x = PyFloat.of_ratio (n <? 0) (Z.abs n) 1.
Proof.
  unfold PyFloat.of_int.
  destruct (PyFloat.of_ratio (n <? 0) (Z.abs n) 1); congruence.
Qed.

Section More.

Import ZeroxProvider.

Context (settings : ZeroxSettings) (USER_ADDRESS : string)
        (TOKEN_DECIMALS : gmap string N) (self : ZeroxProvider.t)
        (chain from_token to_token : string) (from_amount : Z)
        (user_address : option string) (env : Env).

Local Abbreviation request :=
  (quote_request settings USER_ADDRESS self chain from_token to_token
                 from_amount user_address).
Local Abbreviation outcome :=
  (quote settings USER_ADDRESS TOKEN_DECIMALS self chain from_token
         to_token from_amount user_address env).

(** X1.  When a response arrives whose status is outside 400..599 and
    whose body is a JSON object, the call returns the record of lines
    74-80: exactly the keys [name], [output_amount], [elapsed_time],
    [status_code] and [raw_response]; the status is the response's own
    (2xx or not), the raw response is the whole decoded body, the elapsed
    time runs from the first to the second reading of the clock, which is
    read twice, and there is no [error] key. *)
Theorem success_record r items :
  network env request = inr r ->
  ~ 400 <= status_code r <= 599 ->
  body r = JsonBody (VDict items) ->
  keys outcome.1
  = ["name"; "output_amount"; "elapsed_time"; "status_code"; "raw_response"]
  /\ field "name" outcome.1 = Some (VStr "0x")
  /\ field "elapsed_time" outcome.1 = Some (VFloat (elapsed env 1))
  /\ field "status_code" outcome.1 = Some (VInt (status_code r))
  /\ field "raw_response" outcome.1 = Some (VDict items)
  /\ field "error" outcome.1 = None
  /\ clock_reads outcome.2 = 2%nat.
Proof.
  intros Hnet Hstatus Hbody.
  rewrite (quote_success _ _ _ _ _ _ _ _ _ _ _ _ Hnet
             (http_error_none r Hstatus) Hbody).
  cbn. repeat split.
Qed.

(** X2.  In the success record [output_amount] is [None] exactly when
    [buyAmount] is absent or falsy; otherwise it is a string, also when
    the conversion fails. *)
Theorem output_amount_none_iff r items :
  network env request = inr r ->
  ~ 400 <= status_code r <= 599 ->
  body r = JsonBody (VDict items) ->
  (field "output_amount" outcome.1 = Some VNone <->
   Py.truthy (Py.of_option (Py.dict_get "buyAmount" items)) = false) /\
  (Py.truthy (Py.of_option (Py.dict_get "buyAmount" items)) = true ->
   exists text, field "output_amount" outcome.1 = Some (VStr text)).
Proof.
  intros Hnet Hstatus Hbody.
  rewrite (quote_success _ _ _ _ _ _ _ _ _ _ _ _ Hnet
             (http_error_none r Hstatus) Hbody).
  cbn -[formatted_output].
  destruct (formatted_output_cases TOKEN_DECIMALS to_token
              (Py.of_option (Py.dict_get "buyAmount" items)))
    as [[E Ht] | (text & E & Ht)]; rewrite E, Ht.
  - split; [tauto | discriminate].
  - split; [split; discriminate | eauto].
Qed.


Ltac run_quote :=
  unfold quote, call, get_quote, try_except, on_request_exception,
    requests.get, requests.raise_for_status, requests.json, method_get,
    time.perf_counter, raise, mbind, Run_bind, mret, Run_ret;
  cbn -[formatted_output].

(** X3.  The case of the buy-token address does not matter for the
    output: two calls whose buy tokens differ only in case and whose 2xx
    answers carry the same [buyAmount] give the same [output_amount];
    yet each call sends its address unchanged as [buyToken]. *)
Theorem buy_token_case_is_ignored to_token' env' r r' items items' :
  PyStr.lower to_token = PyStr.lower to_token' ->
  answered_2xx settings USER_ADDRESS self chain from_token to_token
               from_amount user_address env r items ->
  answered_2xx settings USER_ADDRESS self chain from_token to_token'
               from_amount user_address env' r' items' ->
  Py.dict_get "buyAmount" items = Py.dict_get "buyAmount" items' ->
  field "output_amount" outcome.1
  = field "output_amount"
          (quote settings USER_ADDRESS TOKEN_DECIMALS self chain from_token
                 to_token' from_amount user_address env').1
  /\ query_param "buyToken" request = Some to_token
  /\ query_param "buyToken"
       (quote_request settings USER_ADDRESS self chain from_token to_token'
                      from_amount user_address) = Some to_token'.
Proof.
  intros Hlower Hr Hr' Hsame.
  rewrite (quote_2xx _ _ _ _ _ _ _ _ _ _ _ _ Hr).
  rewrite (quote_2xx _ _ _ _ _ _ _ _ _ _ _ _ Hr').
  cbn -[formatted_output]. rewrite Hsame.
  unfold formatted_output, convert. rewrite Hlower. auto.
Qed.

(** A table entry under a key that is not in lower case is never read. *)
Lemma formatted_output_insert key d raw :
  PyStr.lower key <> key ->
  formatted_output (<[key := d]> TOKEN_DECIMALS) to_token raw
  = formatted_output TOKEN_DECIMALS to_token raw.
Proof.
  intros Hkey. unfold formatted_output, convert.
  rewrite lookup_insert_ne; [reflexivity|].
  intros ->. apply Hkey, lower_idempotent.
Qed.

(** X4.  The table is read under lower-cased keys only: adding an entry
    under a key that is not in lower case changes no call, whatever the
    network answers. *)
Theorem non_lower_key_is_never_read key d :
  PyStr.lower key <> key ->
  quote settings USER_ADDRESS (<[key := d]> TOKEN_DECIMALS) self chain
        from_token to_token from_amount user_address env
  = outcome.
Proof.
  intros Hkey. run_quote.
  destruct (network env _) as [[message response|c m]|r]; cbn;
    [reflexivity | reflexivity |].
  destruct (requests.http_error_msg r); cbn; [reflexivity|].
  destruct (body r) as [v|m]; cbn -[formatted_output]; [|reflexivity].
  destruct v; cbn -[formatted_output]; try reflexivity.
  rewrite (formatted_output_insert _ _ _ Hkey). reflexivity.
Qed.

(** X6.  An exception of the transport that is no
    [requests.RequestException] is not caught: the call raises it
    unchanged, after one request and one reading of the clock. *)
Theorem foreign_exception_propagates class_name message :
  network env
    (quote_request settings USER_ADDRESS self chain from_token to_token
                   from_amount user_address)
  = inl (OtherError class_name message) ->
  outcome.1 = inl (OtherError class_name message) /\
  returned outcome.1 = false /\
  sent outcome.2 = [request] /\
  clock_reads outcome.2 = 1%nat.
Proof.
  intros Hnet.
  rewrite (quote_other_error _ _ _ _ _ _ _ _ _ _ _ _ Hnet). auto.
Qed.

(** X7.  When the body of a response with a status outside 400..599 is
    JSON but no object, the call raises [AttributeError] - the value has
    no [get] - and the one request has been sent. *)
Theorem non_object_body_raises r v :
  network env request = inr r ->
  ~ 400 <= status_code r <= 599 ->
  body r = JsonBody v ->
  (forall items, v <> VDict items) ->
  outcome.1
  = inl (OtherError "AttributeError"
           (String.append "'"
              (String.append (type_name v)
                             "' object has no attribute 'get'"))) /\
  sent outcome.2 = [request].
Proof.
  intros Hnet Hstatus Hbody Hv. run_quote. fold request.
  rewrite Hnet. cbn. rewrite (http_error_none r Hstatus). cbn.
  rewrite Hbody.
  destruct v; cbn; auto.
  exfalso. eapply Hv. reflexivity.
Qed.

(** X8.  For a response with a 4xx or 5xx status the failure record
    carries the message of [raise_for_status] as [error]; the elapsed
    time is measured anew in the handler, from the first to the third
    reading of the clock, and the measurement of line 39 is dropped. *)
Theorem error_status_record r :
  network env request = inr r ->
  400 <= status_code r <= 599 ->
  field "error" outcome.1 = VStr <$> requests.http_error_msg r /\
  field "elapsed_time" outcome.1 = Some (VFloat (elapsed env 2)) /\
  clock_reads outcome.2 = 3%nat.
Proof.
  intros Hnet Hstatus.
  destruct (proj2 (http_error_iff r) Hstatus) as [message Hmsg].
  rewrite (quote_http_error _ _ _ _ _ _ _ _ _ _ _ _ Hnet Hmsg), Hmsg.
  auto.
Qed.


(** X10.  No returned record, success or failure, carries a
    [status_code] between 400 and 599. *)
Theorem returned_status_is_no_error_status status :
  field "status_code" outcome.1 = Some (VInt status) ->
  ~ 400 <= status <= 599.
Proof.
  run_quote. fold request.
  destruct (network env request) as [[message response|c m]|r];
    cbn -[status_or_none].
  - intros [= H]. apply status_reported_iff in H as (r & _ & <- & H).
    exact H.
  - discriminate.
  - destruct (requests.http_error_msg r) eqn:E; cbn.
    + unfold requests.ok. rewrite E. discriminate.
    + destruct (body r) as [v|m]; cbn -[formatted_output]; [|discriminate].
      destruct v; cbn -[formatted_output]; try discriminate.
      intros [= <-] H. apply http_error_iff in H. rewrite E in H.
      destruct H as [? H]; discriminate H.
Qed.

(** X12.  Every record the call returns has one of two shapes: the
    five keys of a success ([output_amount] and [raw_response], no
    [error]) or the four keys of a failure ([error], neither
    [output_amount] nor [raw_response]). *)
Theorem record_is_success_or_failure :
  returned outcome.1 = true ->
  keys outcome.1
  = ["name"; "output_amount"; "elapsed_time"; "status_code"; "raw_response"]
  \/ keys outcome.1 = ["name"; "error"; "elapsed_time"; "status_code"].
Proof.
  run_quote. fold request.
  destruct (network env request) as [[message response|c m]|r];
    cbn -[status_or_none]; [auto | discriminate |].
  destruct (requests.http_error_msg r) eqn:E; cbn; [auto|].
  destruct (body r) as [v|m]; cbn -[formatted_output]; [|auto].
  destruct v; cbn -[formatted_output]; try discriminate. auto.
Qed.

End More.

(** ** The chain configuration *)

Lemma config_tokens_checked :
  forallb (fun t1 =>
    forallb (fun t2 =>
      implb (String.eqb (PyStr.lower (address t1)) (PyStr.lower (address t2)))
            (N.eqb (decimals t1) (decimals t2)
             && String.eqb (symbol t1) (symbol t2)))
      config_tokens && N.leb (decimals t1) 18)
    config_tokens = true.
Proof. vm_compute. reflexivity. Qed.

(** X13.  [CHAIN_CONFIG] is consistent across chains and spellings: two
    entries whose addresses agree up to case have the same decimal count
    and the same symbol. *)
Theorem config_tokens_consistent t1 t2 :
  In t1 config_tokens -> In t2 config_tokens ->
  PyStr.lower (address t1) = PyStr.lower (address t2) ->
  decimals t1 = decimals t2 /\ symbol t1 = symbol t2.
Proof.
  intros H1 H2 E.
  pose proof config_tokens_checked as H.
  rewrite forallb_forall in H. specialize (H t1 H1).
  apply andb_prop in H as [H _].
  rewrite forallb_forall in H. specialize (H t2 H2).
  rewrite E, String.eqb_refl in H. cbn in H.
  apply andb_prop in H as [Hd Hs].
  split; [apply N.eqb_eq, Hd | apply String.eqb_eq, Hs].
Qed.

Lemma config_decimals_small t :
  In t config_tokens -> (decimals t <= 18)%N.
Proof.
  intros H1. pose proof config_tokens_checked as H.
  rewrite forallb_forall in H. specialize (H t H1).
  apply andb_prop in H as [_ H]. apply N.leb_le, H.
Qed.

(** X14.  With a decimals table that holds every token of
    [CHAIN_CONFIG] under its lower-cased address, a configured buy
    token, in whatever case its address is written, never meets the
    fallback for too large a decimal count: a truthy [buyAmount] that
    [float()] reads as [x] gives the quotient of [x] by ten to the
    configured decimals. *)
Theorem configured_token_is_converted
    settings USER_ADDRESS (TOKEN_DECIMALS : gmap string N) self chain
    from_token to_token from_amount user_address env r items raw x t :
  (forall t', In t' config_tokens ->
     TOKEN_DECIMALS !! PyStr.lower (address t') = Some (decimals t')) ->
  In t config_tokens ->
  PyStr.lower to_token = PyStr.lower (address t) ->
  answered_2xx settings USER_ADDRESS self chain from_token to_token
               from_amount user_address env r items ->
  Py.dict_get "buyAmount" items = Some raw ->
  Py.truthy raw = true ->
  Py.float raw = inr x ->
  field "output_amount"
        (quote settings USER_ADDRESS TOKEN_DECIMALS self chain from_token
               to_token from_amount user_address env).1
  = Some (VStr (scaled x (decimals t))).
Proof.
  intros Htable Ht Hlower Hr Hraw Htruthy Hx.
  rewrite (quote_2xx _ _ _ _ _ _ _ _ _ _ _ _ Hr), Hraw.
  cbn -[ZeroxProvider.formatted_output].
  rewrite (formatted_output_known _ _ raw x (decimals t)); auto.
  - rewrite Hlower. apply Htable, Ht.
  - pose proof (config_decimals_small t Ht). lia.
Qed.

(** ** Amounts sent as numbers and as text *)

Lemma formatted_output_int_text (TOKEN_DECIMALS : gmap string N) to_token n x :
  n <> 0 ->
  PyFloat.of_int n = Some x ->
  ZeroxProvider.formatted_output TOKEN_DECIMALS to_token (VInt n)
  = ZeroxProvider.formatted_output TOKEN_DECIMALS to_token
      (VStr (PyInt.str n)).
Proof.
  intros Hn Hx.
  unfold ZeroxProvider.formatted_output, ZeroxProvider.convert.
  cbn [Py.truthy Py.float Py.str Py.repr].
  rewrite int_text_not_empty. cbn [negb].
  replace (negb (n =? 0)) with true
    by (symmetry; apply negb_true_iff, Z.eqb_neq, Hn).
  rewrite Hx, float_of_int_text, <- (float_of_int_value n x Hx).
  destruct (TOKEN_DECIMALS !! PyStr.lower to_token); [|reflexivity].
  destruct (Py.float_div_int x _); reflexivity.
Qed.

(** X15.  A non-zero integer amount that converts to a float gives the
    same [output_amount] whether the response carries it as a JSON
    number or as its decimal text, whatever the decimals table holds. *)
Theorem number_and_text_amounts_agree
    settings USER_ADDRESS (TOKEN_DECIMALS : gmap string N) self chain
    from_token to_token from_amount user_address env env' r r' items items'
    n x :
  n <> 0 ->
  PyFloat.of_int n = Some x ->
  answered_2xx settings USER_ADDRESS self chain from_token to_token
               from_amount user_address env r items ->
  Py.dict_get "buyAmount" items = Some (VInt n) ->
  answered_2xx settings USER_ADDRESS self chain from_token to_token
               from_amount user_address env' r' items' ->
  Py.dict_get "buyAmount" items' = Some (VStr (PyInt.str n)) ->
  field "output_amount"
        (quote settings USER_ADDRESS TOKEN_DECIMALS self chain from_token
               to_token from_amount user_address env).1
  = field "output_amount"
          (quote settings USER_ADDRESS TOKEN_DECIMALS self chain from_token
                 to_token from_amount user_address env').1.
Proof.
  intros Hn Hx Hr Hraw Hr' Hraw'.
  rewrite (quote_2xx _ _ _ _ _ _ _ _ _ _ _ _ Hr), Hraw.
  rewrite (quote_2xx _ _ _ _ _ _ _ _ _ _ _ _ Hr'), Hraw'.
  cbn -[ZeroxProvider.formatted_output].
  rewrite (formatted_output_int_text _ _ n x Hn Hx). reflexivity.
Qed.

(** X16.  A [buyAmount] that is the decimal text of an integer [n] -
    the text ["0"] included - is always converted when the buy token's
    decimal count [d <= 308] is known: [output_amount] is the text of
    the quotient of the float nearest to [n] by [10^d]. *)
Theorem text_amount_is_converted
    settings USER_ADDRESS (TOKEN_DECIMALS : gmap string N) self chain
    from_token to_token from_amount user_address env r items n d :
  answered_2xx settings USER_ADDRESS self chain from_token to_token
               from_amount user_address env r items ->
  Py.dict_get "buyAmount" items = Some (VStr (PyInt.str n)) ->
  TOKEN_DECIMALS !! PyStr.lower to_token = Some d ->
  (d <= 308)%N ->
  field "output_amount"
        (quote settings USER_ADDRESS TOKEN_DECIMALS self chain from_token
               to_token from_amount user_address env).1
  = Some (VStr (scaled (PyFloat.of_ratio (n <? 0) (Z.abs n) 1) d)).
Proof.
  intros Hr Hraw Hd Hle.
  rewrite (quote_2xx _ _ _ _ _ _ _ _ _ _ _ _ Hr), Hraw.
  cbn -[ZeroxProvider.formatted_output].
  rewrite (formatted_output_known _ _ _
             (PyFloat.of_ratio (n <? 0) (Z.abs n) 1) d); auto.
  - cbn. rewrite int_text_not_empty. reflexivity.
  - cbn. rewrite float_of_int_text. reflexivity.
Qed.

(** ** The further properties at sample inputs *)

(** X1 at a 200 answer with [buyAmount = "2000000"]. *)
Lemma success_record_witness :
  let run := Sample.quote_of Sample.USDT0 (Sample.ok_with (VStr "2000000")) in
  keys run.1
  = ["name"; "output_amount"; "elapsed_time"; "status_code"; "raw_response"]
  /\ field "name" run.1 = Some (VStr "0x")
  /\ field "elapsed_time" run.1
     = Some (VFloat (elapsed (Sample.ok_with (VStr "2000000")) 1))
  /\ field "status_code" run.1 = Some (VInt 200)
  /\ field "raw_response" run.1
     = Some (VDict [("buyAmount", VStr "2000000")])
  /\ field "error" run.1 = None
  /\ clock_reads run.2 = 2%nat.
Proof.
  apply (success_record Sample.settings Sample.USER_ADDRESS
           TOKEN_DECIMALS_of_config Sample.self "999" Sample.USDe
           Sample.USDT0 Sample.one_USDe None
           (Sample.ok_with (VStr "2000000"))
           (json_response 200 (VDict [("buyAmount", VStr "2000000")]))
           [("buyAmount", VStr "2000000")]).
  - reflexivity.
  - cbn. lia.
  - reflexivity.
Defined.

(** X2 at a 200 answer with [buyAmount = 0]. *)
Lemma output_amount_none_iff_witness :
  let run := Sample.quote_of Sample.USDT0 (Sample.ok_with (VInt 0)) in
  (field "output_amount" run.1 = Some VNone <->
   Py.truthy (Py.of_option (Py.dict_get "buyAmount" [("buyAmount", VInt 0)]))
   = false) /\
  (Py.truthy (Py.of_option (Py.dict_get "buyAmount" [("buyAmount", VInt 0)]))
   = true ->
   exists text, field "output_amount" run.1 = Some (VStr text)).
Proof.
  apply (output_amount_none_iff Sample.settings Sample.USER_ADDRESS
           TOKEN_DECIMALS_of_config Sample.self "999" Sample.USDe
           Sample.USDT0 Sample.one_USDe None (Sample.ok_with (VInt 0))
           (json_response 200 (VDict [("buyAmount", VInt 0)]))
           [("buyAmount", VInt 0)]).
  - reflexivity.
  - cbn. lia.
  - reflexivity.
Defined.

(** X3 at the address of kHYPE as [CHAIN_CONFIG] writes it and in lower case. *)
Lemma buy_token_case_is_ignored_witness :
  let amount := VStr "5000000000000000000" in
  field "output_amount"
        (Sample.quote_of "0xfD739d4e423301CE9385c1fb8850539D657C296D"
           (Sample.ok_with amount)).1
  = field "output_amount"
          (Sample.quote_of "0xfd739d4e423301ce9385c1fb8850539d657c296d"
             (Sample.ok_with amount)).1
  /\ query_param "buyToken"
       (quote_request Sample.settings Sample.USER_ADDRESS Sample.self "999"
          Sample.USDe "0xfD739d4e423301CE9385c1fb8850539D657C296D"
          Sample.one_USDe None)
     = Some "0xfD739d4e423301CE9385c1fb8850539D657C296D"
  /\ query_param "buyToken"
       (quote_request Sample.settings Sample.USER_ADDRESS Sample.self "999"
          Sample.USDe "0xfd739d4e423301ce9385c1fb8850539d657c296d"
          Sample.one_USDe None)
     = Some "0xfd739d4e423301ce9385c1fb8850539d657c296d".
Proof.
  apply (buy_token_case_is_ignored Sample.settings Sample.USER_ADDRESS
           TOKEN_DECIMALS_of_config Sample.self "999" Sample.USDe
           "0xfD739d4e423301CE9385c1fb8850539D657C296D" Sample.one_USDe None
           (Sample.ok_with (VStr "5000000000000000000"))
           "0xfd739d4e423301ce9385c1fb8850539d657c296d"
           (Sample.ok_with (VStr "5000000000000000000"))
           (json_response 200
              (VDict [("buyAmount", VStr "5000000000000000000")]))
           (json_response 200
              (VDict [("buyAmount", VStr "5000000000000000000")]))
           [("buyAmount", VStr "5000000000000000000")]
           [("buyAmount", VStr "5000000000000000000")]).
  - vm_compute. reflexivity.
  - split; [reflexivity | split; [cbn; lia | reflexivity]].
  - split; [reflexivity | split; [cbn; lia | reflexivity]].
  - reflexivity.
Defined.

(** X4 at a table whose only key is the address of kHYPE in mixed case. *)
Lemma non_lower_key_is_never_read_witness :
  quote Sample.settings Sample.USER_ADDRESS
        (<["0xfD739d4e423301CE9385c1fb8850539D657C296D" := 18%N]> ∅)
        Sample.self "999" Sample.USDe
        "0xfD739d4e423301CE9385c1fb8850539D657C296D" Sample.one_USDe None
        (Sample.ok_with (VStr "5000000000000000000"))
  = quote Sample.settings Sample.USER_ADDRESS ∅ Sample.self "999"
          Sample.USDe "0xfD739d4e423301CE9385c1fb8850539D657C296D"
          Sample.one_USDe None
          (Sample.ok_with (VStr "5000000000000000000")).
Proof.
  apply (non_lower_key_is_never_read Sample.settings Sample.USER_ADDRESS ∅
           Sample.self "999" Sample.USDe
           "0xfD739d4e423301CE9385c1fb8850539D657C296D" Sample.one_USDe None
           (Sample.ok_with (VStr "5000000000000000000"))
           "0xfD739d4e423301CE9385c1fb8850539D657C296D" 18%N).
  vm_compute. discriminate.
Defined.

(** X6 at a transport that raises [ValueError]. *)
Lemma foreign_exception_propagates_witness :
  let run := Sample.quote_of Sample.USDT0
               (constant_env (inl (OtherError "ValueError" "bad port"))) in
  run.1 = inl (OtherError "ValueError" "bad port") /\
  returned run.1 = false /\
  sent run.2
  = [quote_request Sample.settings Sample.USER_ADDRESS Sample.self "999"
                   Sample.USDe Sample.USDT0 Sample.one_USDe None] /\
  clock_reads run.2 = 1%nat.
Proof.
  apply (foreign_exception_propagates Sample.settings Sample.USER_ADDRESS
           TOKEN_DECIMALS_of_config Sample.self "999" Sample.USDe
           Sample.USDT0 Sample.one_USDe None
           (constant_env (inl (OtherError "ValueError" "bad port")))
           "ValueError" "bad port").
  reflexivity.
Defined.

(** X7 at a 200 answer whose body is a JSON string. *)
Lemma non_object_body_raises_witness :
  let run := Sample.quote_of Sample.USDT0
               (constant_env (inr (json_response 200 (VStr "maintenance")))) in
  run.1 = inl (OtherError "AttributeError"
                 "'str' object has no attribute 'get'") /\
  sent run.2
  = [quote_request Sample.settings Sample.USER_ADDRESS Sample.self "999"
                   Sample.USDe Sample.USDT0 Sample.one_USDe None].
Proof.
  apply (non_object_body_raises Sample.settings Sample.USER_ADDRESS
           TOKEN_DECIMALS_of_config Sample.self "999" Sample.USDe
           Sample.USDT0 Sample.one_USDe None
           (constant_env (inr (json_response 200 (VStr "maintenance"))))
           (json_response 200 (VStr "maintenance")) (VStr "maintenance")).
  - reflexivity.
  - cbn. lia.
  - reflexivity.
  - discriminate.
Defined.

(** X8 at a 503 answer. *)
Lemma error_status_record_witness :
  let env := Sample.status_only 503 "Service Unavailable" in
  let run := Sample.quote_of Sample.USDT0 env in
  field "error" run.1
  = Some (VStr "503 Server Error: Service Unavailable for url: https://api.0x.org/swap/permit2/quote") /\
  field "elapsed_time" run.1 = Some (VFloat (elapsed env 2)) /\
  clock_reads run.2 = 3%nat.
Proof.
  apply (error_status_record Sample.settings Sample.USER_ADDRESS
           TOKEN_DECIMALS_of_config Sample.self "999" Sample.USDe
           Sample.USDT0 Sample.one_USDe None
           (Sample.status_only 503 "Service Unavailable")
           {| status_code := 503; reason := "Service Unavailable";
              response_url := url Sample.settings;
              body := JsonBody (VDict []) |}).
  - reflexivity.
  - cbn. lia.
Defined.


(** X10 at a 200 answer. *)
Lemma returned_status_is_no_error_status_witness :
  field "status_code"
        (Sample.quote_of Sample.USDT0 (Sample.ok_with (VStr "2000000"))).1
  = Some (VInt 200) /\
  ~ 400 <= 200 <= 599.
Proof.
  split; [reflexivity|].
  apply (returned_status_is_no_error_status Sample.settings
           Sample.USER_ADDRESS TOKEN_DECIMALS_of_config Sample.self "999"
           Sample.USDe Sample.USDT0 Sample.one_USDe None
           (Sample.ok_with (VStr "2000000")) 200).
  reflexivity.
Defined.

(** X12 at a 404 answer. *)
Lemma record_is_success_or_failure_witness :
  let run := Sample.quote_of Sample.USDT0 (Sample.status_only 404 "Not Found") in
  keys run.1
  = ["name"; "output_amount"; "elapsed_time"; "status_code"; "raw_response"]
  \/ keys run.1 = ["name"; "error"; "elapsed_time"; "status_code"].
Proof.
  apply (record_is_success_or_failure Sample.settings Sample.USER_ADDRESS
           TOKEN_DECIMALS_of_config Sample.self "999" Sample.USDe
           Sample.USDT0 Sample.one_USDe None
           (Sample.status_only 404 "Not Found")).
  reflexivity.
Defined.

(** X13 at USDT0, listed in lower case on chain 999 and in mixed case on chain 9745. *)
Lemma config_tokens_consistent_witness :
  decimals (mkToken "0xb8ce59fc3717ada4c02eadf9682a9e934f625ebb" "USDT0" 6)
  = decimals (normalization_token plasma) /\
  symbol (mkToken "0xb8ce59fc3717ada4c02eadf9682a9e934f625ebb" "USDT0" 6)
  = symbol (normalization_token plasma).
Proof.
  apply (config_tokens_consistent
           (mkToken "0xb8ce59fc3717ada4c02eadf9682a9e934f625ebb" "USDT0" 6)
           (normalization_token plasma)).
  - vm_compute. right. left. reflexivity.
  - vm_compute. do 16 right. left. reflexivity.
  - vm_compute. reflexivity.
Defined.

(** X14 at the address of kHYPE in upper case and five units of it. *)
Lemma configured_token_is_converted_witness :
  field "output_amount"
        (Sample.quote_of "0xFD739D4E423301CE9385C1FB8850539D657C296D"
           (Sample.ok_with (VStr "5000000000000000000"))).1
  = Some (VStr "5.0").
Proof.
  refine (eq_trans
    (configured_token_is_converted Sample.settings Sample.USER_ADDRESS
       TOKEN_DECIMALS_of_config Sample.self "999" Sample.USDe
       "0xFD739D4E423301CE9385C1FB8850539D657C296D" Sample.one_USDe None
       (Sample.ok_with (VStr "5000000000000000000"))
       (json_response 200
          (VDict [("buyAmount", VStr "5000000000000000000")]))
       [("buyAmount", VStr "5000000000000000000")]
       (VStr "5000000000000000000")
       (PyFloat.of_ratio false 5000000000000000000 1)
       (mkToken "0xfD739d4e423301CE9385c1fb8850539D657C296D" "kHYPE" 18)
       _ _ _ _ _ _ _) _).
  - intros t' Ht'. vm_compute in Ht'.
    repeat (destruct Ht' as [<- | Ht']; [vm_compute; reflexivity|]).
    destruct Ht'.
  - vm_compute. do 10 right. left. reflexivity.
  - vm_compute. reflexivity.
  - split; [reflexivity | split; [cbn; lia | reflexivity]].
  - reflexivity.
  - reflexivity.
  - vm_compute. reflexivity.
  - vm_compute. reflexivity.
Defined.

(** X15 at the amount 2000000. *)
Lemma number_and_text_amounts_agree_witness :
  field "output_amount"
        (Sample.quote_of Sample.USDT0 (Sample.ok_with (VInt 2000000))).1
  = field "output_amount"
          (Sample.quote_of Sample.USDT0 (Sample.ok_with (VStr "2000000"))).1.
Proof.
  apply (number_and_text_amounts_agree Sample.settings Sample.USER_ADDRESS
           TOKEN_DECIMALS_of_config Sample.self "999" Sample.USDe
           Sample.USDT0 Sample.one_USDe None
           (Sample.ok_with (VInt 2000000)) (Sample.ok_with (VStr "2000000"))
           (json_response 200 (VDict [("buyAmount", VInt 2000000)]))
           (json_response 200 (VDict [("buyAmount", VStr "2000000")]))
           [("buyAmount", VInt 2000000)] [("buyAmount", VStr "2000000")]
           2000000 (PyFloat.of_ratio false 2000000 1)).
  - discriminate.
  - vm_compute. reflexivity.
  - split; [reflexivity | split; [cbn; lia | reflexivity]].
  - reflexivity.
  - split; [reflexivity | split; [cbn; lia | reflexivity]].
  - reflexivity.
Defined.

(** X16 at UBTC and the text of zero. *)
Lemma text_amount_is_converted_witness :
  field "output_amount"
        (Sample.quote_of Sample.UBTC (Sample.ok_with (VStr "0"))).1
  = Some (VStr "0.0").
Proof.
  refine (eq_trans
    (text_amount_is_converted Sample.settings Sample.USER_ADDRESS
       TOKEN_DECIMALS_of_config Sample.self "999" Sample.USDe Sample.UBTC
       Sample.one_USDe None (Sample.ok_with (VStr "0"))
       (json_response 200 (VDict [("buyAmount", VStr "0")]))
       [("buyAmount", VStr "0")] 0 8%N _ _ _ _) _).
  - split; [reflexivity | split; [cbn; lia | reflexivity]].
  - reflexivity.
  - vm_compute. reflexivity.
  - lia.
  - vm_compute. reflexivity.
Defined.
